(** * Import resolution of the proto language extension

    A shallow embedding of [internal/language/proto/resolve.go]: the
    functions [Resolve], [resolveProto], [isWellKnownProto] and
    [resolveWithIndex], together with the parts of the Go standard library
    ([strings], [path]) and of the sibling packages ([label], [pathtools],
    [resolve], [rule]) they call.

    Go strings are byte sequences and are modelled by [string]; Go [int]
    indices that may be [-1] are modelled by [Z]. *)

From Stdlib Require Import ZArith Ascii.
From stdpp Require Import gmap strings list fin_maps.

Local Open Scope Z_scope.

(** ** Go strings *)

Module strings.

(** [len(s)] *)
Definition len (s : string) : Z := Z.of_nat (String.length s).

(** [s[n:]] for [0 <= n <= len(s)], with [n] given as a natural number. *)
Fixpoint sliceFrom (n : nat) (s : string) : string :=
  match n, s with
  | O, _ => s
  | S n', String _ s' => sliceFrom n' s'
  | S _, EmptyString => EmptyString
  end.

(** [s[:n]] for [0 <= n <= len(s)]. *)
Fixpoint sliceTo (n : nat) (s : string) : string :=
  match n, s with
  | O, _ => EmptyString
  | S n', String c s' => String c (sliceTo n' s')
  | S _, EmptyString => EmptyString
  end.

(** [strings.HasPrefix(s, prefix)]:
    [len(s) >= len(prefix) && s[0:len(prefix)] == prefix]. *)
Definition HasPrefix (s prefix : string) : bool :=
  (String.length prefix <=? String.length s)%nat
  && String.eqb (sliceTo (String.length prefix) s) prefix.

(** [strings.HasSuffix(s, suffix)]:
    [len(s) >= len(suffix) && s[len(s)-len(suffix):] == suffix]. *)
Definition HasSuffix (s suffix : string) : bool :=
  (String.length suffix <=? String.length s)%nat
  && String.eqb (sliceFrom (String.length s - String.length suffix) s) suffix.

(** [strings.TrimPrefix(s, prefix)] *)
Definition TrimPrefix (s prefix : string) : string :=
  if HasPrefix s prefix then sliceFrom (String.length prefix) s else s.

(** [strings.Split(s, "/")]: the elements between the slashes; always at
    least one element. *)
Fixpoint SplitSlash (s : string) : list string :=
  match s with
  | EmptyString => [EmptyString]
  | String c s' =>
      if Ascii.eqb c "/" then EmptyString :: SplitSlash s'
      else match SplitSlash s' with
           | e :: es => String c e :: es
           | [] => [String c EmptyString]
           end
  end.

(** [strings.Join(elems, "/")] *)
Fixpoint JoinSlash (elems : list string) : string :=
  match elems with
  | [] => ""
  | [e] => e
  | e :: es => e +:+ "/" +:+ JoinSlash es
  end.

(** [strings.Contains(s, "/")] *)
Fixpoint ContainsSlash (s : string) : bool :=
  match s with
  | EmptyString => false
  | String c s' => Ascii.eqb c "/" || ContainsSlash s'
  end.


End strings.

(** ** Package [path] of the Go standard library *)

Module path.

(** The loop [for len(path) > 0 && path[len(path)-1] == '/'] of [Base],
    which removes the trailing slashes. *)
Fixpoint stripTrailingSlashes (s : string) : string :=
  match s with
  | EmptyString => EmptyString
  | String c s' =>
      match stripTrailingSlashes s' with
      | EmptyString => if Ascii.eqb c "/" then EmptyString else String c EmptyString
      | t => String c t
      end
  end.

(** [lastSlash(s)]: the index of the last slash of [s], [-1] without one. *)
Fixpoint lastSlash (s : string) : Z :=
  match s with
  | EmptyString => -1
  | String c s' =>
      let i := lastSlash s' in
      if 0 <=? i then 1 + i
      else if Ascii.eqb c "/" then 0 else -1
  end.

(** [path.Base] *)
Definition Base (p : string) : string :=
  if String.eqb p "" then "."
  else
    let p1 := stripTrailingSlashes p in
    let i := lastSlash p1 in
    let p2 := if 0 <=? i then strings.sliceFrom (Z.to_nat (i + 1)) p1 else p1 in
    if String.eqb p2 "" then "/" else p2.

(** [path.Split]: [path[:i+1], path[i+1:]] for [i := lastSlash(path)]. *)
Definition Split (p : string) : string * string :=
  let i := lastSlash p in
  (strings.sliceTo (Z.to_nat (i + 1)) p, strings.sliceFrom (Z.to_nat (i + 1)) p).

(** One step of the loop of [path.Clean], on a whole path element: the
    elements kept so far are [out] (innermost last), of which the first
    [dotdot] are leading [..] elements that cannot be removed. *)
Definition cleanStep (rooted : bool) (st : nat * list string) (e : string)
  : nat * list string :=
  let '(dotdot, out) := st in
  if String.eqb e "" then st
  else if String.eqb e "." then st
  else if String.eqb e ".." then
    if (dotdot <? length out)%nat then (dotdot, removelast out)
    else if rooted then st
    else (S dotdot, out ++ [".."])
  else (dotdot, out ++ [e]).

(** [path.Clean] *)
Definition Clean (p : string) : string :=
  if String.eqb p "" then "."
  else
    let rooted := match p with String c _ => Ascii.eqb c "/" | _ => false end in
    let '(_, out) := foldl (cleanStep rooted) (O, []) (strings.SplitSlash p) in
    let body := strings.JoinSlash out in
    if rooted then "/" +:+ body
    else if String.eqb body "" then "." else body.

(** [path.Dir] *)
Definition Dir (p : string) : string := Clean (fst (Split p)).

(** [path.Join] of two elements: the elements from the first one that is
    not empty on are joined with a slash and the result is cleaned; the
    empty string when both are empty. *)
Definition Join (a b : string) : string :=
  if negb (String.eqb a "") then Clean (a +:+ "/" +:+ b)
  else if negb (String.eqb b "") then Clean b
  else "".

End path.

(** ** Package [pathtools] *)

Module pathtools.

(** Modelled from the spec: [pathtools.HasPrefix] is not under src/. It
    is the test "the slash-separated path [p] lies under [prefix]", on
    whole path elements: the empty prefix encloses every path, a path
    encloses itself, and otherwise [p] starts with [prefix + "/"]. *)
Definition HasPrefix (p prefix : string) : bool :=
  String.eqb prefix "" || String.eqb p prefix
  || strings.HasPrefix p (prefix +:+ "/").

(** Modelled from the spec: [pathtools.TrimPrefix] is not under src/. It
    removes [prefix] and the slash after it from [p]; [p] is returned as
    it is when it does not lie under [prefix]. *)
Definition TrimPrefix (p prefix : string) : string :=
  if String.eqb prefix "" then p
  else if String.eqb prefix p then ""
  else strings.TrimPrefix p (prefix +:+ "/").

End pathtools.

(** ** Package [label] *)

Module label.

(** Modelled from the spec: the [label] package is not under src/. A label
    is a repository (empty for the current workspace), a package path and
    a target name; [Relative] marks a label whose repository and package
    were dropped by [Rel]. *)
Record Label : Type := mkLabel {
  Repo : string;
  Pkg : string;
  Name : string;
  Relative : bool
}.

#[global] Instance Label_eq_dec : EqDecision Label.
Proof. solve_decision. Defined.

(** Modelled from the spec: [label.New(repo, pkg, name)] is not under
    src/; it makes the label of the three parts. *)
Definition New (repo pkg name : string) : Label :=
  {| Repo := repo; Pkg := pkg; Name := name; Relative := false |}.

(** Modelled from the spec: [label.NoLabel] is not under src/; it is the
    zero value of [Label]. *)
Definition NoLabel : Label :=
  {| Repo := ""; Pkg := ""; Name := ""; Relative := false |}.

(** Modelled from the spec: [Label.Equal] is not under src/; equality of
    labels is structural. *)
Definition Equal (l other : Label) : bool :=
  String.eqb (Repo l) (Repo other) && String.eqb (Pkg l) (Pkg other)
  && String.eqb (Name l) (Name other) && Bool.eqb (Relative l) (Relative other).

(** Modelled from the spec: [Label.Rel] is not under src/. It drops the
    repository when it is the context's, and the package too when both
    are the context's; a label of another repository, or one that is
    already relative, is returned as it is. *)
Definition Rel (l : Label) (repo pkg : string) : Label :=
  if Relative l || negb (String.eqb (Repo l) repo) then l
  else if String.eqb (Pkg l) pkg
       then {| Repo := ""; Pkg := ""; Name := Name l; Relative := true |}
       else {| Repo := ""; Pkg := Pkg l; Name := Name l; Relative := false |}.

(** Modelled from the spec: [Label.String] is not under src/. It gives the
    shortest valid reference: [:name] for a relative label, [//pkg:name]
    in the current workspace and [@repo//pkg:name] in another repository.
    The expected output of the test case [nested_vendor]
    ([//vendor/b/vendor/a] for the rule [a] of package [vendor/b/vendor/a])
    shows that [:name] is left out when the name is the last element of
    the package. *)
Definition String (l : Label) : string :=
  if Relative l then ":" +:+ Name l
  else
    let repo := if String.eqb (Repo l) "" then "" else "@" +:+ Repo l in
    if String.eqb (path.Base (Pkg l)) (Name l)
    then repo +:+ "//" +:+ Pkg l
    else repo +:+ "//" +:+ Pkg l +:+ ":" +:+ Name l.

End label.

(** ** Package [resolve]: the rule index *)

Module resolve.

(** [resolve.ImportSpec], with the fields the resolver sets. *)
Record ImportSpec : Type := mkImportSpec { Lang : string; Imp : string }.

#[global] Instance ImportSpec_eq_dec : EqDecision ImportSpec.
Proof. solve_decision. Defined.

#[global] Instance ImportSpec_countable : Countable ImportSpec.
Proof.
  refine (inj_countable' (fun s => (Lang s, Imp s))
                         (fun p => mkImportSpec p.1 p.2) _).
  intros []; reflexivity.
Defined.

(** Modelled from the spec: the records of the Rule Index are not under
    src/. A record keeps the rule's label, the language of the resolver
    registered for its kind, the import specifications the rule provides
    and the labels it embeds. *)
Record ruleRecord : Type := mkRuleRecord {
  rec_label : label.Label;
  rec_lang : string;
  rec_imports : list ImportSpec;
  rec_embeds : list label.Label
}.

(** Modelled from the spec: [resolve.FindResult] is not under src/; it is
    what a lookup returns for one provider. The resolver reads its [Label]. *)
Record FindResult : Type := mkFindResult {
  Label : label.Label;
  Embeds : list label.Label
}.

(** Modelled from the spec: [resolve.RuleIndex] is not under src/. Rules
    are appended until the index is sealed; sealing computes the multimap
    from import specifications to the records that provide them. *)
Record RuleIndex : Type := mkRuleIndex {
  rules : list ruleRecord;
  importMap : gmap ImportSpec (list ruleRecord);
  sealed : bool
}.

(** Modelled from the spec: [resolve.NewRuleIndex] is not under src/; the
    index starts empty and open. *)
Definition NewRuleIndex : RuleIndex :=
  {| rules := []; importMap := ∅; sealed := false |}.

(** Modelled from the spec: [AddRule] registers a rule; calling it on a
    sealed index is a programming error ([None]). *)
Definition AddRule (ix : RuleIndex) (r : ruleRecord) : option RuleIndex :=
  if sealed ix then None
  else Some {| rules := rules ix ++ [r]; importMap := importMap ix; sealed := false |}.

(** The record [r] is appended to the entry of every import specification
    it provides. *)
Definition addRecord (m : gmap ImportSpec (list ruleRecord)) (r : ruleRecord)
  : gmap ImportSpec (list ruleRecord) :=
  foldl (fun m imp => <[imp := default [] (m !! imp) ++ [r]]> m) m (rec_imports r).

(** Modelled from the spec: [Finish] seals the index. *)
Definition Finish (ix : RuleIndex) : RuleIndex :=
  {| rules := rules ix;
     importMap := foldl addRecord ∅ (rules ix);
     sealed := true |}.

(** Modelled from the spec: [FindRulesByImport] returns the providers of
    [imp] among the rules of the language [lang]; it does not change the
    index. *)
Definition FindRulesByImport (ix : RuleIndex) (imp : ImportSpec) (lang : string)
  : list FindResult :=
  (fun m => mkFindResult (rec_label m) (rec_embeds m))
    <$> filter (fun m => rec_lang m = lang) (default [] (importMap ix !! imp)).

End resolve.

(** ** Package [rule] *)

Module rule.

(** Modelled from the spec: the values of the attributes of a rule are not
    under src/; the resolver writes lists of strings. *)
Inductive attrValue : Type :=
| StringAttr (s : string)
| StringsAttr (l : list string).

(** Modelled from the spec: the payload of a private attribute. The raw
    imports are a flat list of strings for the proto rules and platform
    strings (generic strings and per-platform lists) for the Go rules, as
    [convertImportsAttr] of the tests sets them. *)
Inductive privateValue : Type :=
| FlatStrings (l : list string)
| PlatformStrings (generic : list string) (platform : gmap string (list string)).

(** Modelled from the spec: [rule.Rule] is not under src/. A rule has a
    kind, attributes that are written to the build file and private
    attributes that are not. *)
Record Rule : Type := mkRule {
  Kind : string;
  attrs : gmap string attrValue;
  private : gmap string privateValue
}.

(** Modelled from the spec: [r.PrivateAttr(key)] is not under src/; [None]
    is Go's [nil]. *)
Definition PrivateAttr (r : Rule) (key : string) : option privateValue :=
  private r !! key.

(** Modelled from the spec: [r.DelAttr(key)] is not under src/; it removes
    the attribute. *)
Definition DelAttr (r : Rule) (key : string) : Rule :=
  {| Kind := Kind r; attrs := delete key (attrs r); private := private r |}.

(** Modelled from the spec: [r.SetAttr(key, value)] is not under src/; it
    replaces the attribute, here by a list of strings. *)
Definition SetAttr (r : Rule) (key : string) (value : list string) : Rule :=
  {| Kind := Kind r; attrs := <[key := StringsAttr value]> (attrs r);
     private := private r |}.

End rule.

(** ** The proto resolver ([internal/language/proto/resolve.go]) *)

(** The errors of the resolver. [skipImportError] and [notFoundError] are
    the two sentinel values; an error made by [fmt.Errorf] is a value of
    its own, different from both, kept here with the arguments of its
    format. *)
Inductive error : Type :=
| skipImportError
| notFoundError
| nonProtoError (imp : string)
| multipleRulesError (l0 l1 : label.Label) (imp : string) (from : label.Label).

#[global] Instance error_eq_dec : EqDecision error.
Proof. solve_decision. Defined.

(** What a call of [Resolve] does: it returns, leaving the rule as [rule]
    and having printed [logged] with [log.Print], or it panics. *)
Inductive outcome : Type :=
| Returned (r : rule.Rule) (logged : list error)
| Panicked.

Section ProtoResolve.

(** The constants of the package [config] and the function [RuleName] of
    [generate.go] are not under src/. *)
Variable WellKnownTypesProtoRepo : string.
Variable WellKnownTypesProtoPrefix : string.
Variable GazelleImportsKey : string.
Variable RuleName : string -> string -> string -> string.

(** [isWellKnownProto]: the import lies under the prefix, and what is left
    of it without the prefix is its base name. *)
Definition isWellKnownProto (imp : string) : bool :=
  pathtools.HasPrefix imp WellKnownTypesProtoPrefix
  && String.eqb (pathtools.TrimPrefix imp WellKnownTypesProtoPrefix) (path.Base imp).

(** [resolveWithIndex]: the label of the only provider of the import; no
    provider, several providers and the resolving rule as the provider are
    three different errors. *)
Definition resolveWithIndex (ix : resolve.RuleIndex) (imp : string) (from : label.Label)
  : label.Label * option error :=
  let matches := resolve.FindRulesByImport ix (resolve.mkImportSpec "proto" imp) "proto" in
  match matches with
  | [] => (label.NoLabel, Some notFoundError)
  | m0 :: [] =>
      if label.Equal from (resolve.Label m0) then (label.NoLabel, Some skipImportError)
      else (resolve.Label m0, None)
  | m0 :: m1 :: _ =>
      (label.NoLabel,
       Some (multipleRulesError (resolve.Label m0) (resolve.Label m1) imp from))
  end.

(** [resolveProto]: the label an import resolves to, or an error. The pair
    is Go's [(label.Label, error)], with [None] for the [nil] error. *)
Definition resolveProto (ix : resolve.RuleIndex) (r : rule.Rule) (imp : string)
  (from : label.Label) : label.Label * option error :=
  if negb (strings.HasSuffix imp ".proto") then (label.NoLabel, Some (nonProtoError imp))
  else if isWellKnownProto imp then
    let name :=
      path.Base (strings.sliceTo (String.length imp - String.length ".proto") imp)
      +:+ "_proto" in
    (label.New WellKnownTypesProtoRepo "" name, None)
  else
    match resolveWithIndex ix imp from with
    | (l, None) => (l, None)
    | (l, Some skipImportError) => (l, Some skipImportError)
    | (_, Some notFoundError) =>
        let rel := path.Dir imp in
        let rel := if String.eqb rel "." then "" else rel in
        let name := RuleName "" rel "" in
        (label.New "" rel name, None)
    | (_, Some err) => (label.NoLabel, Some err)
    end.

(** The loop of [Resolve] over the imports: [deps] and [logged] are the
    dependencies appended and the errors printed so far. *)
Fixpoint resolveImports (ix : resolve.RuleIndex) (r : rule.Rule) (from : label.Label)
  (imports : list string) (deps : list string) (logged : list error)
  : list string * list error :=
  match imports with
  | [] => (deps, logged)
  | imp :: rest =>
      match resolveProto ix r imp from with
      | (_, Some skipImportError) => resolveImports ix r from rest deps logged
      | (_, Some err) => resolveImports ix r from rest deps (logged ++ [err])
      | (l, None) =>
          let l := label.Rel l (label.Repo from) (label.Pkg from) in
          resolveImports ix r from rest (deps ++ [label.String l]) logged
      end
  end.

(** [Resolve]. The configuration and the remote cache are not used. The
    type assertion [importsRaw.([]string)] panics on a private attribute
    of another type. *)
Definition Resolve (ix : resolve.RuleIndex) (r : rule.Rule) (from : label.Label)
  : outcome :=
  match rule.PrivateAttr r GazelleImportsKey with
  | None => Returned r []
  | Some (rule.FlatStrings imports) =>
      let r := rule.DelAttr r "deps" in
      let '(deps, logged) := resolveImports ix r from imports [] [] in
      if (0 <? length deps)%nat then Returned (rule.SetAttr r "deps" deps) logged
      else Returned r logged
  | Some _ => Panicked
  end.

(** [Imports]: the import specifications a rule provides, one per source
    file, in the package [rel] of the build file. *)
Definition Imports (rel : string) (r : rule.Rule) : list resolve.ImportSpec :=
  match rule.attrs r !! "srcs" with
  | Some (rule.StringsAttr srcs) =>
      (fun src => resolve.mkImportSpec "proto" (path.Join rel src)) <$> srcs
  | _ => []
  end.

(** [Embeds] *)
Definition Embeds (r : rule.Rule) (from : label.Label) : list label.Label := [].


End ProtoResolve.

(** What [Resolve] does to the attributes of the rule, given the
    dependencies [deps] it computed: the old attribute is deleted, and a new
    one is set when there is a dependency. *)
Definition writeDeps (r : rule.Rule) (deps : list string) : rule.Rule :=
  let r := rule.DelAttr r "deps" in
  if (0 <? length deps)%nat then rule.SetAttr r "deps" deps else r.

(** The dependency attribute that stands for the dependencies [deps]:
    none for an empty list. *)
Definition attrOfDeps (deps : list string) : option rule.attrValue :=
  match deps with
  | [] => None
  | _ :: _ => Some (rule.StringsAttr deps)
  end.


(** ** The Go resolver: index lookup under the vendoring convention *)

Module golang.

(** The elements of [parts] before its last element [vendor], if any. *)
Fixpoint beforeLastVendor (parts : list string) : option (list string) :=
  match parts with
  | [] => None
  | p :: ps =>
      match beforeLastVendor ps with
      | Some pre => Some (p :: pre)
      | None => if String.eqb p "vendor" then Some [] else None
      end
  end.

(** Modelled from the spec: the Go resolver ([internal/language/go/resolve.go])
    is not under src/. The vendor-directory prefix of a package inside a
    vendor directory is the directory that holds that vendor directory
    (the innermost one, as the test case [nested_vendor] expects); a
    package outside every vendor directory has none. *)
Definition vendorRoot (pkg : string) : option string :=
  strings.JoinSlash <$> beforeLastVendor (strings.SplitSlash pkg).

(** Modelled from the spec: a vendored candidate can be selected for the
    consumer [from] when its vendor-directory prefix is a prefix of the
    consumer's package path. The prefix may be the whole path: the test
    case [deep_vendor_shallow_vendor] has the consumer in [shallow/deep]
    and the provider in [shallow/deep/vendor]. A candidate that is not
    vendored can always be selected. *)
Definition encloses (from : label.Label) (m : resolve.FindResult) : bool :=
  match vendorRoot (label.Pkg (resolve.Label m)) with
  | None => true
  | Some root => pathtools.HasPrefix (label.Pkg from) root
  end.

(** Modelled from the spec: the depth of a candidate is the length of its
    vendor-directory prefix; a candidate that is not vendored is below
    every vendored one. *)
Definition vendorDepth (m : resolve.FindResult) : Z :=
  match vendorRoot (label.Pkg (resolve.Label m)) with
  | None => -1
  | Some root => strings.len root
  end.

(** Modelled from the spec: the narrowing of step 3 keeps, among the
    candidates that can be selected, those of the greatest depth. *)
Definition nearestVendored (from : label.Label) (matches : list resolve.FindResult)
  : list resolve.FindResult :=
  let eligible := filter (fun m => encloses from m = true) matches in
  let best := foldr Z.max (-1) (vendorDepth <$> eligible) in
  filter (fun m => vendorDepth m = best) eligible.

(** Modelled from the spec: step 3 of the generic-module resolver, the
    index lookup with vendoring precedence, followed by the tie-break
    rules of the Rule Index. The embed redirection and the external
    fallback (steps 4 and 5) are not part of this model. *)
Definition resolveWithIndexGo (ix : resolve.RuleIndex) (imp : string)
  (from : label.Label) : label.Label * option error :=
  let matches := resolve.FindRulesByImport ix (resolve.mkImportSpec "go" imp) "go" in
  let narrowed :=
    match matches with
    | _ :: _ :: _ => nearestVendored from matches
    | _ => matches
    end in
  match narrowed with
  | [] => (label.NoLabel, Some notFoundError)
  | m0 :: [] =>
      if label.Equal from (resolve.Label m0) then (label.NoLabel, Some skipImportError)
      else (resolve.Label m0, None)
  | m0 :: m1 :: _ =>
      (label.NoLabel,
       Some (multipleRulesError (resolve.Label m0) (resolve.Label m1) imp from))
  end.

End golang.

(** ** Sample configuration and build files

    Values for the parameters of the resolver, and the rules of some test
    cases of [TestResolveGo], for the examples below. *)

Module sample.

Definition WellKnownTypesProtoRepo : string := "com_google_protobuf".
Definition WellKnownTypesProtoPrefix : string := "google/protobuf".
Definition GazelleImportsKey : string := "_gazelle_imports".

(** A default target name per directory: the last element of the
    directory, [root] for the top directory, followed by [_proto]. *)
Definition RuleName (goPkg rel pfx : string) : string :=
  (if String.eqb rel "" then "root" else path.Base rel) +:+ "_proto".

Definition resolveProto := resolveProto WellKnownTypesProtoRepo WellKnownTypesProtoPrefix RuleName.
Definition Resolve :=
  Resolve WellKnownTypesProtoRepo WellKnownTypesProtoPrefix GazelleImportsKey RuleName.

(** The index that holds the given records, sealed. *)
Definition indexOf (recs : list resolve.ruleRecord) : resolve.RuleIndex :=
  resolve.Finish (foldl (fun ix r => default ix (resolve.AddRule ix r))
                        resolve.NewRuleIndex recs).

(** A [proto_library] named [name] in package [pkg] with sources [srcs]. *)
Definition protoRecord (pkg name : string) (srcs : list string) : resolve.ruleRecord :=
  resolve.mkRuleRecord (label.New "" pkg name) "proto"
    ((fun src => resolve.mkImportSpec "proto" (path.Join pkg src)) <$> srcs) [].

(** A [go_library] named [name] in package [pkg] with the given import path. *)
Definition goRecord (pkg name importpath : string) : resolve.ruleRecord :=
  resolve.mkRuleRecord (label.New "" pkg name) "go"
    [resolve.mkImportSpec "go" importpath] [].

(** A proto rule with name [name], raw imports [imports] and a stale
    dependency attribute. *)
Definition protoRule (name : string) (imports : list string) : rule.Rule :=
  rule.mkRule "proto_library"
    {[ "name" := rule.StringAttr name; "deps" := rule.StringsAttr [":stale"] ]}
    {[ GazelleImportsKey := rule.FlatStrings imports ]}.

(** The dependency attribute of the rule [Resolve] returns with. *)
Definition depsOf (o : outcome) : option (option rule.attrValue) :=
  match o with
  | Returned r _ => Some (rule.attrs r !! "deps")
  | Panicked => None
  end.

(** What [Resolve] printed. *)
Definition logOf (o : outcome) : option (list error) :=
  match o with
  | Returned _ logged => Some logged
  | Panicked => None
  end.

(** Test case [deep_vendor_shallow_vendor]. *)
Definition deepShallowIndex : resolve.RuleIndex :=
  indexOf [goRecord "shallow/vendor" "shallow" "example.com/foo";
           goRecord "shallow/deep/vendor" "deep" "example.com/foo"].

(** Test case [vendor_supercedes_nonvendor]. *)
Definition vendorNonvendorIndex : resolve.RuleIndex :=
  indexOf [goRecord "" "root" "example.com/foo";
           goRecord "vendor/foo" "vendored" "example.com/foo"].

(** Test case [vendor_not_visible]. *)
Definition vendorNotVisibleIndex : resolve.RuleIndex :=
  indexOf [goRecord "" "root" "example.com/foo";
           goRecord "a/vendor/foo" "vendored" "example.com/foo"].

(** Test case [nested_vendor]. *)
Definition nestedVendorIndex : resolve.RuleIndex :=
  indexOf [goRecord "vendor/a" "a" "a"; goRecord "vendor/b/vendor/a" "a" "a"].

(** Two rules of the package [a] that both list [x.proto]. *)
Definition ambiguousIndex : resolve.RuleIndex :=
  indexOf [protoRecord "a" "a_proto" ["x.proto"]; protoRecord "a" "b_proto" ["x.proto"]].

(** Two rules of the package [google/protobuf] that both list [any.proto]. *)
Definition ambiguousWellKnownIndex : resolve.RuleIndex :=
  indexOf [protoRecord "google/protobuf" "any_proto" ["any.proto"];
           protoRecord "google/protobuf" "all_proto" ["any.proto"; "api.proto"]].

(** One rule of the package [google/protobuf] that lists [any.proto]. *)
Definition wellKnownSelfIndex : resolve.RuleIndex :=
  indexOf [protoRecord "google/protobuf" "wkt_proto" ["any.proto"; "api.proto"]].

(** One rule that lists a source file that is not a [.proto] file. *)
Definition nonProtoSelfIndex : resolve.RuleIndex :=
  indexOf [protoRecord "data" "data_proto" ["schema.txt"]].

(** One rule, of the package [lib]. *)
Definition libIndex : resolve.RuleIndex :=
  indexOf [protoRecord "lib" "lib_proto" ["lib.proto"; "util.proto"]].


End sample.

(** ** Plain paths *)

(** A path element that [path.Clean] keeps as it is: not empty, not [.],
    not [..] and without a slash. *)
Definition plainElem (e : string) : bool :=
  negb (String.eqb e "") && negb (String.eqb e ".") && negb (String.eqb e "..")
  && negb (strings.ContainsSlash e).

(** ** The helpers of the tests of the resolvers *)

Module vcs.

(** [vcs.RepoRoot] of [golang.org/x/tools/go/vcs], with the fields the stub
    sets; the version control command is kept by its name. *)
Record RepoRoot : Type := mkRepoRoot {
  VCS : string;
  Repo : string;
  Root : string
}.

End vcs.

(** What [stubRepoRootForImportPath] returns: a repository root with the
    [nil] error, or no root with the error made by [fmt.Errorf], kept with
    the argument of its format. *)
Inductive repoRootResult : Type :=
| FoundRoot (root : vcs.RepoRoot)
| CouldNotResolve (importpath : string).

(** [stubRepoRootForImportPath] *)
Definition stubRepoRootForImportPath (importpath : string) (verbose : bool)
  : repoRootResult :=
  if strings.HasPrefix importpath "example.com/repo.git" then
    FoundRoot {| vcs.VCS := "git"; vcs.Repo := "https://example.com/repo.git";
                 vcs.Root := "example.com/repo.git" |}
  else if strings.HasPrefix importpath "example.com/repo" then
    FoundRoot {| vcs.VCS := "git"; vcs.Repo := "https://example.com/repo.git";
                 vcs.Root := "example.com/repo" |}
  else if strings.HasPrefix importpath "example.com" then
    FoundRoot {| vcs.VCS := "git"; vcs.Repo := "https://example.com";
                 vcs.Root := "example.com" |}
  else CouldNotResolve importpath.

(** Modelled from the spec: [r.AttrStrings(key)] is not under src/; it is
    the list of a list attribute, and the empty list (Go's [nil]) for an
    attribute that is missing or not a list. *)
Definition AttrStrings (r : rule.Rule) (key : string) : list string :=
  match rule.attrs r !! key with
  | Some (rule.StringsAttr l) => l
  | _ => []
  end.

(** Modelled from the spec: [r.SetPrivateAttr(key, value)] is not under
    src/; it replaces the private attribute. *)
Definition SetPrivateAttr (r : rule.Rule) (key : string) (value : rule.privateValue)
  : rule.Rule :=
  {| rule.Kind := rule.Kind r; rule.attrs := rule.attrs r;
     rule.private := <[key := value]> (rule.private r) |}.

Section TestHelpers.

(** The key [config.GazelleImportsKey] and the set [goKinds] of the kinds
    of the Go rules ([kinds.go]) are not under src/. *)
Variable GazelleImportsKey : string.
Variable goKinds : gset string.

(** [convertImportsAttr]: the attribute [_imports] of a rule of a test
    becomes its raw imports. A [nil] list stored in the private attribute
    is a list, not [nil]. *)
Definition convertImportsAttr (r : rule.Rule) : rule.Rule :=
  let kind := rule.Kind r in
  let value := AttrStrings r "_imports" in
  let r := rule.DelAttr r "_imports" in
  if decide (kind ∈ goKinds) then
    SetPrivateAttr r GazelleImportsKey (rule.PlatformStrings value ∅)
  else if String.eqb kind "proto_library" then
    SetPrivateAttr r GazelleImportsKey (rule.FlatStrings value)
  else r.

End TestHelpers.

Module testdata.

(** Kinds of Go rules, for the examples. *)
Definition goKinds : gset string :=
  {[ "go_binary"; "go_library"; "go_test"; "go_proto_library" ]}.

Definition convertImportsAttr := convertImportsAttr sample.GazelleImportsKey goKinds.

(** The rule [bar_proto] of the test case [proto_embed], as the build file
    of the test has it. *)
Definition barProto : rule.Rule :=
  rule.mkRule "proto_library"
    {[ "name" := rule.StringAttr "bar_proto"; "srcs" := rule.StringsAttr ["bar.proto"];
       "_imports" := rule.StringsAttr ["foo.proto"] ]} ∅.

(** The rule [d] of the test case [binary_embed]. *)
Definition goLib : rule.Rule :=
  rule.mkRule "go_library"
    {[ "name" := rule.StringAttr "d"; "_imports" := rule.StringsAttr ["a"] ]} ∅.

End testdata.

(** * Properties *)

(** ** The test cases of the repository *)

Example vendoring_test_cases :
  golang.resolveWithIndexGo sample.deepShallowIndex "example.com/foo"
    (label.New "" "shallow/deep" "bin") = (label.New "" "shallow/deep/vendor" "deep", None)
  /\ golang.resolveWithIndexGo sample.vendorNonvendorIndex "example.com/foo"
       (label.New "" "sub" "bin") = (label.New "" "vendor/foo" "vendored", None)
  /\ golang.resolveWithIndexGo sample.vendorNotVisibleIndex "example.com/foo"
       (label.New "" "b" "bin") = (label.New "" "" "root", None)
  /\ golang.resolveWithIndexGo sample.nestedVendorIndex "a"
       (label.New "" "vendor/b/c" "bin") = (label.New "" "vendor/b/vendor/a" "a", None).
Proof. repeat split; vm_compute; reflexivity. Qed.

(** The order of [path.Base] and of cutting the extension in
    [resolveProto]: for a file named [.proto] the name comes from the
    directory. *)
Example well_known_dot_proto :
  sample.resolveProto resolve.NewRuleIndex (sample.protoRule "c_proto" [])
    "google/protobuf/.proto" (label.New "" "" "c_proto")
  = (label.New "com_google_protobuf" "" "protobuf_proto", None).
Proof. reflexivity. Qed.

(** The test case [proto_embed], for its [proto_library] rules: [bar_proto]
    imports [foo.proto], which [foo_proto] of the same package provides. *)
Example proto_embed_test_case :
  let ix := sample.indexOf [sample.protoRecord "" "foo_proto" ["foo.proto"];
                            sample.protoRecord "" "bar_proto" ["bar.proto"]] in
  sample.depsOf (sample.Resolve ix (sample.protoRule "bar_proto" ["foo.proto"])
                   (label.New "" "" "bar_proto"))
  = Some (Some (rule.StringsAttr [":foo_proto"])).
Proof. vm_compute. reflexivity. Qed.

(** ** Examples of the library functions *)

Example Base_examples :
  path.Base "google/protobuf/any" = "any"
  /\ path.Base "a/b/" = "b" /\ path.Base "" = "." /\ path.Base "///" = "/"
  /\ path.Base "x" = "x".
Proof. repeat split; reflexivity. Qed.

Example Dir_examples :
  path.Dir "a/b/c.proto" = "a/b" /\ path.Dir "c.proto" = "."
  /\ path.Dir "/c.proto" = "/" /\ path.Dir "a//b/../c/x" = "a/c"
  /\ path.Dir "../../x" = "../.." /\ path.Dir "/../x" = "/"
  /\ path.Dir "a/./b/" = "a/b".
Proof. repeat split; reflexivity. Qed.

Example Clean_examples :
  path.Clean "a/../.." = ".." /\ path.Clean "a/b/../../c" = "c"
  /\ path.Clean "/a/../../b" = "/b" /\ path.Clean "./" = "."
  /\ path.Clean "../a/../../b" = "../../b".
Proof. repeat split; reflexivity. Qed.

Example strings_examples :
  strings.HasSuffix "a/b.proto" ".proto" = true
  /\ strings.HasSuffix "proto" ".proto" = false
  /\ strings.HasPrefix "google/protobuf/x" "google/protobuf/" = true
  /\ strings.TrimPrefix "google/protobuf/x" "google/protobuf/" = "x"
  /\ strings.SplitSlash "a//b" = ["a"; ""; "b"]
  /\ strings.SplitSlash "" = [""].
Proof. repeat split; reflexivity. Qed.

Example Join_examples :
  path.Join "" "foo.proto" = "foo.proto" /\ path.Join "sub" "bar.proto" = "sub/bar.proto"
  /\ path.Join "a/b" "../c.proto" = "a/c.proto" /\ path.Join "a" "" = "a"
  /\ path.Join "" "" = "".
Proof. repeat split; reflexivity. Qed.

Example label_String_examples :
  label.String (label.Rel (label.New "" "a" "a_lib") "" "b") = "//a:a_lib"
  /\ label.String (label.Rel (label.New "" "" "a") "" "") = ":a"
  /\ label.String (label.Rel (label.New "" "" "root") "" "b") = "//:root"
  /\ label.String (label.Rel (label.New "" "vendor/b/vendor/a" "a") "" "vendor/b/c")
     = "//vendor/b/vendor/a"
  /\ label.String (label.Rel (label.New "com_example_repo" "lib" "go_default_library") "" "")
     = "@com_example_repo//lib:go_default_library".
Proof. repeat split; reflexivity. Qed.

(** ** Facts about Go strings *)

Lemma app_cons (c : ascii) (s t : string) : String c s +:+ t = String c (s +:+ t).
Proof. reflexivity. Qed.

Lemma app_empty_l (s : string) : "" +:+ s = s.
Proof. reflexivity. Qed.

Lemma app_empty_r (s : string) : s +:+ "" = s.
Proof. induction s as [|c s IH]; [reflexivity|]. rewrite app_cons, IH. reflexivity. Qed.

Lemma app_assoc_str (s t u : string) : (s +:+ t) +:+ u = s +:+ (t +:+ u).
Proof. induction s as [|c s IH]; [reflexivity|]. rewrite !app_cons, IH. reflexivity. Qed.

Lemma length_app_str (s t : string) :
  String.length (s +:+ t) = (String.length s + String.length t)%nat.
Proof. induction s as [|c s IH]; [reflexivity|]. rewrite app_cons. simpl. rewrite IH. reflexivity. Qed.

Lemma sliceTo_app (p s : string) : strings.sliceTo (String.length p) (p +:+ s) = p.
Proof. induction p as [|c p IH]; [reflexivity|]. rewrite app_cons. simpl. rewrite IH. reflexivity. Qed.

Lemma sliceFrom_app (p s : string) : strings.sliceFrom (String.length p) (p +:+ s) = s.
Proof. induction p as [|c p IH]; [reflexivity|]. rewrite app_cons. simpl. exact IH. Qed.

Lemma sliceTo_sliceFrom (n : nat) (s : string) :
  strings.sliceTo n s +:+ strings.sliceFrom n s = s.
Proof.
  revert s. induction n as [|n IH]; intros s; [reflexivity|].
  destruct s as [|c s]; [reflexivity|]. simpl. rewrite app_cons, IH. reflexivity.
Qed.

Lemma HasPrefix_app (p s : string) : strings.HasPrefix (p +:+ s) p = true.
Proof.
  unfold strings.HasPrefix. rewrite sliceTo_app, String.eqb_refl, length_app_str.
  rewrite andb_true_r. apply Nat.leb_le. lia.
Qed.

Lemma HasPrefix_inv (s p : string) :
  strings.HasPrefix s p = true -> s = p +:+ strings.sliceFrom (String.length p) s.
Proof.
  unfold strings.HasPrefix. intros H. apply andb_true_iff in H as [_ H].
  apply String.eqb_eq in H. rewrite <- H at 1. symmetry. apply sliceTo_sliceFrom.
Qed.


Lemma HasSuffix_app (t suffix : string) : strings.HasSuffix (t +:+ suffix) suffix = true.
Proof.
  unfold strings.HasSuffix. rewrite length_app_str.
  replace (String.length t + String.length suffix - String.length suffix)%nat
    with (String.length t) by lia.
  rewrite sliceFrom_app, String.eqb_refl, andb_true_r. apply Nat.leb_le. lia.
Qed.


(** ** Facts about [path] *)

Lemma stripTrailingSlashes_cons (c : ascii) (s : string) :
  path.stripTrailingSlashes (String c s) =
  match path.stripTrailingSlashes s with
  | EmptyString => if Ascii.eqb c "/" then EmptyString else String c EmptyString
  | t => String c t
  end.
Proof. reflexivity. Qed.


Lemma stripTrailingSlashes_app (t u : string) :
  path.stripTrailingSlashes u <> "" ->
  path.stripTrailingSlashes (t +:+ u) = t +:+ path.stripTrailingSlashes u.
Proof.
  intros Hu. induction t as [|c t IH]; [reflexivity|].
  rewrite !app_cons, stripTrailingSlashes_cons, IH.
  destruct t as [|c' t'].
  - rewrite app_empty_l. destruct (path.stripTrailingSlashes u); [contradiction|reflexivity].
  - reflexivity.
Qed.

Lemma lastSlash_cons (c : ascii) (s : string) :
  path.lastSlash (String c s) =
  if 0 <=? path.lastSlash s then 1 + path.lastSlash s
  else if Ascii.eqb c "/" then 0 else -1.
Proof. reflexivity. Qed.

Lemma lastSlash_ge (s : string) : -1 <= path.lastSlash s.
Proof.
  induction s as [|c s IH]; [simpl; lia|]. rewrite lastSlash_cons.
  destruct (0 <=? path.lastSlash s) eqn:E; [lia|]. destruct (Ascii.eqb c "/"); lia.
Qed.

Lemma lastSlash_none (s : string) :
  path.lastSlash s < 0 -> strings.ContainsSlash s = false.
Proof.
  induction s as [|c s IH]; [reflexivity|]. rewrite lastSlash_cons. simpl.
  pose proof (lastSlash_ge s) as Hge.
  destruct (0 <=? path.lastSlash s) eqn:E.
  - apply Z.leb_le in E. lia.
  - apply Z.leb_gt in E. destruct (Ascii.eqb c "/"); [lia|]. intros _. auto.
Qed.

Lemma lastSlash_none_inv (s : string) :
  strings.ContainsSlash s = false -> path.lastSlash s = -1.
Proof.
  induction s as [|c s IH]; [reflexivity|]. simpl. intros H.
  apply orb_false_iff in H as [Hc Hs]. rewrite (IH Hs), Hc. reflexivity.
Qed.

Lemma lastSlash_rest (s : string) :
  0 <= path.lastSlash s ->
  strings.ContainsSlash (strings.sliceFrom (Z.to_nat (path.lastSlash s + 1)) s) = false.
Proof.
  induction s as [|c s IH]; [simpl; lia|]. rewrite lastSlash_cons.
  pose proof (lastSlash_ge s) as Hge.
  destruct (0 <=? path.lastSlash s) eqn:E.
  - apply Z.leb_le in E. intros _.
    replace (Z.to_nat (1 + path.lastSlash s + 1)) with (S (Z.to_nat (path.lastSlash s + 1))) by lia.
    simpl. auto.
  - apply Z.leb_gt in E. destruct (Ascii.eqb c "/"); [|lia]. intros _. simpl.
    apply lastSlash_none. lia.
Qed.


Lemma Base_nonempty (p : string) : path.Base p <> "".
Proof.
  unfold path.Base. destruct (String.eqb p ""); [discriminate|].
  match goal with |- (if String.eqb ?x "" then _ else _) <> _ =>
    destruct (String.eqb_spec x "") as [E|E]; [discriminate|exact E] end.
Qed.


Lemma ContainsSlash_app (a b : string) :
  strings.ContainsSlash (a +:+ b) = strings.ContainsSlash a || strings.ContainsSlash b.
Proof.
  induction a as [|c a IH]; [reflexivity|]. rewrite app_cons. simpl. rewrite IH.
  apply orb_assoc.
Qed.


(** The directory of a path without a slash is [.]. *)
Lemma Dir_no_slash (p : string) : strings.ContainsSlash p = false -> path.Dir p = ".".
Proof.
  intros H. unfold path.Dir, path.Split. rewrite (lastSlash_none_inv p H). reflexivity.
Qed.

(** ** Facts about the proto resolver *)

Section ProtoResolveFacts.

Variable WellKnownTypesProtoRepo : string.
Variable WellKnownTypesProtoPrefix : string.
Variable GazelleImportsKey : string.
Variable RuleName : string -> string -> string -> string.

(** The rule is not used by the resolution of an import. *)
Lemma resolveImports_rule ix r1 r2 from imports deps logged :
  resolveImports WellKnownTypesProtoRepo WellKnownTypesProtoPrefix RuleName
    ix r1 from imports deps logged
  = resolveImports WellKnownTypesProtoRepo WellKnownTypesProtoPrefix RuleName
      ix r2 from imports deps logged.
Proof.
  revert deps logged. induction imports as [|imp rest IH]; intros deps logged; [reflexivity|].
  simpl. change (resolveProto WellKnownTypesProtoRepo WellKnownTypesProtoPrefix RuleName ix r1 imp from)
    with (resolveProto WellKnownTypesProtoRepo WellKnownTypesProtoPrefix RuleName ix r2 imp from).
  destruct (resolveProto _ _ _ ix r2 imp from) as [l [[]|]]; apply IH.
Qed.

(** The loop only appends to what it was given. *)
Lemma resolveImports_acc ix r from imports deps logged :
  resolveImports WellKnownTypesProtoRepo WellKnownTypesProtoPrefix RuleName
    ix r from imports deps logged
  = (deps ++ (resolveImports WellKnownTypesProtoRepo WellKnownTypesProtoPrefix RuleName
                ix r from imports [] []).1,
     logged ++ (resolveImports WellKnownTypesProtoRepo WellKnownTypesProtoPrefix RuleName
                  ix r from imports [] []).2).
Proof.
  revert deps logged. induction imports as [|imp rest IH]; intros deps logged.
  - simpl. rewrite !app_nil_r. reflexivity.
  - simpl. destruct (resolveProto _ _ _ ix r imp from) as [l [e|]].
    + destruct e.
      * apply IH.
      * rewrite (IH deps (logged ++ [_])), (IH [] [_]). simpl.
        rewrite <- app_assoc. reflexivity.
      * rewrite (IH deps (logged ++ [_])), (IH [] [_]). simpl.
        rewrite <- app_assoc. reflexivity.
      * rewrite (IH deps (logged ++ [_])), (IH [] [_]). simpl.
        rewrite <- app_assoc. reflexivity.
    + rewrite (IH (deps ++ [_]) logged), (IH [_] []). simpl.
      rewrite <- app_assoc. reflexivity.
Qed.

(** The imports are resolved one after the other. *)
Lemma resolveImports_app ix r from pre post :
  resolveImports WellKnownTypesProtoRepo WellKnownTypesProtoPrefix RuleName
    ix r from (pre ++ post) [] []
  = ((resolveImports WellKnownTypesProtoRepo WellKnownTypesProtoPrefix RuleName
        ix r from pre [] []).1
     ++ (resolveImports WellKnownTypesProtoRepo WellKnownTypesProtoPrefix RuleName
           ix r from post [] []).1,
     (resolveImports WellKnownTypesProtoRepo WellKnownTypesProtoPrefix RuleName
        ix r from pre [] []).2
     ++ (resolveImports WellKnownTypesProtoRepo WellKnownTypesProtoPrefix RuleName
           ix r from post [] []).2).
Proof.
  induction pre as [|imp rest IH].
  - simpl. destruct (resolveImports _ _ _ ix r from post [] []). reflexivity.
  - simpl. destruct (resolveProto _ _ _ ix r imp from) as [l [e|]].
    + destruct e.
      * apply IH.
      * rewrite resolveImports_acc, (resolveImports_acc ix r from rest), IH. simpl. reflexivity.
      * rewrite resolveImports_acc, (resolveImports_acc ix r from rest), IH. simpl. reflexivity.
      * rewrite resolveImports_acc, (resolveImports_acc ix r from rest), IH. simpl. reflexivity.
    + rewrite resolveImports_acc, (resolveImports_acc ix r from rest), IH. simpl. reflexivity.
Qed.

(** An import that is skipped leaves no trace. *)
Lemma resolveImports_skip ix r from imp l :
  resolveProto WellKnownTypesProtoRepo WellKnownTypesProtoPrefix RuleName ix r imp from
  = (l, Some skipImportError) ->
  resolveImports WellKnownTypesProtoRepo WellKnownTypesProtoPrefix RuleName
    ix r from [imp] [] [] = ([], []).
Proof. intros H. simpl. rewrite H. reflexivity. Qed.

(** An import that fails is printed and adds no dependency. *)
Lemma resolveImports_error ix r from imp l err :
  resolveProto WellKnownTypesProtoRepo WellKnownTypesProtoPrefix RuleName ix r imp from
  = (l, Some err) ->
  err <> skipImportError ->
  resolveImports WellKnownTypesProtoRepo WellKnownTypesProtoPrefix RuleName
    ix r from [imp] [] [] = ([], [err]).
Proof. intros H Hne. simpl. rewrite H. destruct err; [contradiction|reflexivity..]. Qed.

(** [Resolve] on a rule with raw imports. *)
Lemma Resolve_flat ix r from imports :
  rule.PrivateAttr r GazelleImportsKey = Some (rule.FlatStrings imports) ->
  Resolve WellKnownTypesProtoRepo WellKnownTypesProtoPrefix GazelleImportsKey RuleName
    ix r from
  = Returned
      (writeDeps r (resolveImports WellKnownTypesProtoRepo WellKnownTypesProtoPrefix
                      RuleName ix r from imports [] []).1)
      (resolveImports WellKnownTypesProtoRepo WellKnownTypesProtoPrefix RuleName
         ix r from imports [] []).2.
Proof.
  intros H. unfold Resolve. rewrite H.
  rewrite (resolveImports_rule ix (rule.DelAttr r "deps") r).
  destruct (resolveImports _ _ _ ix r from imports [] []) as [deps logged].
  unfold writeDeps. simpl. destruct (0 <? length deps)%nat; reflexivity.
Qed.

(** [Resolve] on a rule with raw imports, one import singled out. *)
Lemma Resolve_split ix r from pre imp post :
  rule.PrivateAttr r GazelleImportsKey = Some (rule.FlatStrings (pre ++ imp :: post)) ->
  Resolve WellKnownTypesProtoRepo WellKnownTypesProtoPrefix GazelleImportsKey RuleName
    ix r from
  = Returned
      (writeDeps r
         ((resolveImports WellKnownTypesProtoRepo WellKnownTypesProtoPrefix RuleName
             ix r from pre [] []).1
          ++ (resolveImports WellKnownTypesProtoRepo WellKnownTypesProtoPrefix RuleName
                ix r from [imp] [] []).1
          ++ (resolveImports WellKnownTypesProtoRepo WellKnownTypesProtoPrefix RuleName
                ix r from post [] []).1))
      ((resolveImports WellKnownTypesProtoRepo WellKnownTypesProtoPrefix RuleName
          ix r from pre [] []).2
       ++ (resolveImports WellKnownTypesProtoRepo WellKnownTypesProtoPrefix RuleName
             ix r from [imp] [] []).2
       ++ (resolveImports WellKnownTypesProtoRepo WellKnownTypesProtoPrefix RuleName
             ix r from post [] []).2).
Proof.
  intros H. rewrite (Resolve_flat ix r from _ H).
  rewrite resolveImports_app. change (imp :: post) with ([imp] ++ post).
  rewrite (resolveImports_app ix r from [imp] post). reflexivity.
Qed.

(** The attribute [deps] after the dependencies were written. *)
Lemma writeDeps_lookup r deps :
  rule.attrs (writeDeps r deps) !! "deps" = attrOfDeps deps.
Proof.
  unfold writeDeps. destruct deps as [|d deps]; simpl.
  - apply lookup_delete_eq.
  - apply lookup_insert_eq.
Qed.

(** Only the attribute [deps] is touched. *)
Lemma writeDeps_frame r deps :
  rule.Kind (writeDeps r deps) = rule.Kind r
  /\ rule.private (writeDeps r deps) = rule.private r
  /\ forall key, key <> "deps" -> rule.attrs (writeDeps r deps) !! key = rule.attrs r !! key.
Proof.
  unfold writeDeps. destruct deps as [|d deps]; simpl; repeat split; intros key Hk.
  - rewrite lookup_delete_ne by congruence. reflexivity.
  - rewrite lookup_insert_ne by congruence. rewrite lookup_delete_ne by congruence. reflexivity.
Qed.

(** Writing the same dependencies again changes nothing. *)
Lemma writeDeps_idemp r deps : writeDeps (writeDeps r deps) deps = writeDeps r deps.
Proof.
  unfold writeDeps. destruct deps as [|d deps]; simpl; unfold rule.DelAttr, rule.SetAttr; simpl.
  - rewrite delete_delete_eq. reflexivity.
  - rewrite delete_insert_eq, delete_delete_eq. reflexivity.
Qed.

(** A path is well-known exactly when it is the prefix, a slash and its own
    base name. *)
Lemma isWellKnownProto_iff imp :
  WellKnownTypesProtoPrefix <> "" ->
  isWellKnownProto WellKnownTypesProtoPrefix imp = true
  <-> imp = WellKnownTypesProtoPrefix +:+ "/" +:+ path.Base imp.
Proof.
  intros Hp. unfold isWellKnownProto, pathtools.HasPrefix, pathtools.TrimPrefix.
  destruct (String.eqb_spec WellKnownTypesProtoPrefix "") as [E|_]; [contradiction|].
  split.
  - intros H. apply andb_true_iff in H as [H1 H2]. apply String.eqb_eq in H2.
    destruct (String.eqb_spec WellKnownTypesProtoPrefix imp) as [E|E].
    + exfalso. apply (Base_nonempty imp). symmetry. exact H2.
    + destruct (String.eqb_spec imp WellKnownTypesProtoPrefix) as [E'|_]; [congruence|].
      simpl in H1. unfold strings.TrimPrefix in H2. rewrite H1 in H2.
      apply HasPrefix_inv in H1. rewrite H2, app_assoc_str in H1. exact H1.
  - intros H.
    assert (Hpre : strings.HasPrefix imp (WellKnownTypesProtoPrefix +:+ "/") = true).
    { rewrite H, <- app_assoc_str. apply HasPrefix_app. }
    assert (Hne : WellKnownTypesProtoPrefix <> imp).
    { intros E. apply (f_equal String.length) in H. rewrite !length_app_str in H.
      rewrite <- E in H at 1. simpl in H. lia. }
    destruct (String.eqb_spec WellKnownTypesProtoPrefix imp) as [E|_]; [contradiction|].
    rewrite Hpre, orb_true_r. simpl. apply String.eqb_eq.
    unfold strings.TrimPrefix. rewrite Hpre.
    rewrite H at 1. rewrite <- app_assoc_str. apply sliceFrom_app.
Qed.

(** C1 (amended). An import with more than one provider in the index, other
    than a well-known path, adds no dependency and is reported: the
    dependencies written are those of the imports before and after it, and
    the error is printed between theirs. The error is the ambiguity for an
    import that ends in [.proto]. *)
Theorem C1_ambiguous_import_reported ix r from pre imp post m0 m1 ms :
  rule.PrivateAttr r GazelleImportsKey = Some (rule.FlatStrings (pre ++ imp :: post)) ->
  resolve.FindRulesByImport ix (resolve.mkImportSpec "proto" imp) "proto" = m0 :: m1 :: ms ->
  strings.HasSuffix imp ".proto" && isWellKnownProto WellKnownTypesProtoPrefix imp = false ->
  let err := if strings.HasSuffix imp ".proto"
             then multipleRulesError (resolve.Label m0) (resolve.Label m1) imp from
             else nonProtoError imp in
  let before := resolveImports WellKnownTypesProtoRepo WellKnownTypesProtoPrefix RuleName
                  ix r from pre [] [] in
  let after := resolveImports WellKnownTypesProtoRepo WellKnownTypesProtoPrefix RuleName
                 ix r from post [] [] in
  resolveProto WellKnownTypesProtoRepo WellKnownTypesProtoPrefix RuleName ix r imp from
  = (label.NoLabel, Some err)
  /\ Resolve WellKnownTypesProtoRepo WellKnownTypesProtoPrefix GazelleImportsKey RuleName
       ix r from
     = Returned (writeDeps r (before.1 ++ after.1)) (before.2 ++ err :: after.2).
Proof.
  intros Hattr Hfind Hwk err before after.
  assert (Hres : resolveProto WellKnownTypesProtoRepo WellKnownTypesProtoPrefix RuleName
                   ix r imp from = (label.NoLabel, Some err)).
  { unfold resolveProto, err. destruct (strings.HasSuffix imp ".proto"); [|reflexivity].
    simpl in Hwk. rewrite Hwk. simpl. unfold resolveWithIndex. rewrite Hfind. reflexivity. }
  split; [exact Hres|].
  rewrite (Resolve_split ix r from pre imp post Hattr).
  rewrite (resolveImports_error ix r from imp _ err Hres).
  - reflexivity.
  - unfold err. destruct (strings.HasSuffix imp ".proto"); discriminate.
Qed.

(** C2 (amended). An import that ends in [.proto], is not well-known and
    whose only provider is the resolving rule itself is skipped: it adds no
    dependency and nothing is printed for it. *)
Theorem C2_self_import_skipped ix r from pre imp post m :
  rule.PrivateAttr r GazelleImportsKey = Some (rule.FlatStrings (pre ++ imp :: post)) ->
  resolve.FindRulesByImport ix (resolve.mkImportSpec "proto" imp) "proto" = [m] ->
  label.Equal from (resolve.Label m) = true ->
  strings.HasSuffix imp ".proto" = true ->
  isWellKnownProto WellKnownTypesProtoPrefix imp = false ->
  let before := resolveImports WellKnownTypesProtoRepo WellKnownTypesProtoPrefix RuleName
                  ix r from pre [] [] in
  let after := resolveImports WellKnownTypesProtoRepo WellKnownTypesProtoPrefix RuleName
                 ix r from post [] [] in
  resolveProto WellKnownTypesProtoRepo WellKnownTypesProtoPrefix RuleName ix r imp from
  = (label.NoLabel, Some skipImportError)
  /\ Resolve WellKnownTypesProtoRepo WellKnownTypesProtoPrefix GazelleImportsKey RuleName
       ix r from
     = Returned (writeDeps r (before.1 ++ after.1)) (before.2 ++ after.2).
Proof.
  intros Hattr Hfind Heq Hs Hwk before after.
  assert (Hres : resolveProto WellKnownTypesProtoRepo WellKnownTypesProtoPrefix RuleName
                   ix r imp from = (label.NoLabel, Some skipImportError)).
  { unfold resolveProto. rewrite Hs, Hwk. simpl. unfold resolveWithIndex.
    rewrite Hfind, Heq. reflexivity. }
  split; [exact Hres|].
  rewrite (Resolve_split ix r from pre imp post Hattr).
  rewrite (resolveImports_skip ix r from imp _ Hres). reflexivity.
Qed.


(** C4 (amended). An import that does not end in [.proto] is not resolved
    to a label; [Resolve] prints the error, adds no dependency for it and
    goes on with the other imports. *)
Theorem C4_non_proto_import_reported ix r from pre imp post :
  rule.PrivateAttr r GazelleImportsKey = Some (rule.FlatStrings (pre ++ imp :: post)) ->
  strings.HasSuffix imp ".proto" = false ->
  let before := resolveImports WellKnownTypesProtoRepo WellKnownTypesProtoPrefix RuleName
                  ix r from pre [] [] in
  let after := resolveImports WellKnownTypesProtoRepo WellKnownTypesProtoPrefix RuleName
                 ix r from post [] [] in
  resolveProto WellKnownTypesProtoRepo WellKnownTypesProtoPrefix RuleName ix r imp from
  = (label.NoLabel, Some (nonProtoError imp))
  /\ Resolve WellKnownTypesProtoRepo WellKnownTypesProtoPrefix GazelleImportsKey RuleName
       ix r from
     = Returned (writeDeps r (before.1 ++ after.1))
         (before.2 ++ nonProtoError imp :: after.2).
Proof.
  intros Hattr Hs before after.
  assert (Hres : resolveProto WellKnownTypesProtoRepo WellKnownTypesProtoPrefix RuleName
                   ix r imp from = (label.NoLabel, Some (nonProtoError imp))).
  { unfold resolveProto. rewrite Hs. reflexivity. }
  split; [exact Hres|].
  rewrite (Resolve_split ix r from pre imp post Hattr).
  rewrite (resolveImports_error ix r from imp _ _ Hres) by discriminate. reflexivity.
Qed.

(** C5. An import that ends in [.proto], is not well-known and has no
    provider in the index resolves to the label of the current workspace
    whose package is the directory of the import (empty when that is [.],
    as for an import without a slash) and whose name is [RuleName] of that
    directory. *)
Theorem C5_fallback_same_directory ix r from imp :
  strings.HasSuffix imp ".proto" = true ->
  isWellKnownProto WellKnownTypesProtoPrefix imp = false ->
  resolve.FindRulesByImport ix (resolve.mkImportSpec "proto" imp) "proto" = [] ->
  let rel := if String.eqb (path.Dir imp) "." then "" else path.Dir imp in
  resolveProto WellKnownTypesProtoRepo WellKnownTypesProtoPrefix RuleName ix r imp from
  = (label.New "" rel (RuleName "" rel ""), None)
  /\ strings.ContainsSlash imp || String.eqb rel "" = true.
Proof.
  intros Hs Hwk Hfind rel. split.
  - unfold resolveProto. rewrite Hs, Hwk. simpl. unfold resolveWithIndex.
    rewrite Hfind. reflexivity.
  - destruct (strings.ContainsSlash imp) eqn:E; [reflexivity|].
    unfold rel. rewrite (Dir_no_slash imp E). reflexivity.
Qed.

(** C6. With raw imports on the rule, [Resolve] writes the dependencies
    computed from the index and the imports; resolving the resulting rule
    again gives the same rule and the same messages; and the attribute
    [deps] is afterwards absent when there is no dependency, and the list
    of dependencies otherwise, whatever it was before. *)
Theorem C6_resolve_idempotent ix r from imports :
  rule.PrivateAttr r GazelleImportsKey = Some (rule.FlatStrings imports) ->
  let res := resolveImports WellKnownTypesProtoRepo WellKnownTypesProtoPrefix RuleName
               ix r from imports [] [] in
  Resolve WellKnownTypesProtoRepo WellKnownTypesProtoPrefix GazelleImportsKey RuleName
    ix r from = Returned (writeDeps r res.1) res.2
  /\ Resolve WellKnownTypesProtoRepo WellKnownTypesProtoPrefix GazelleImportsKey RuleName
       ix (writeDeps r res.1) from = Returned (writeDeps r res.1) res.2
  /\ rule.attrs (writeDeps r res.1) !! "deps" = attrOfDeps res.1
  /\ rule.attrs (writeDeps r res.1) !! "deps" <> Some (rule.StringsAttr []).
Proof.
  intros Hattr res. split; [apply Resolve_flat; exact Hattr|]. split.
  - assert (Hattr' : rule.PrivateAttr (writeDeps r res.1) GazelleImportsKey
                     = Some (rule.FlatStrings imports)).
    { unfold rule.PrivateAttr. destruct (writeDeps_frame r res.1) as (_ & -> & _). exact Hattr. }
    rewrite (Resolve_flat ix _ from imports Hattr').
    rewrite (resolveImports_rule ix (writeDeps r res.1) r). fold res.
    rewrite writeDeps_idemp. reflexivity.
  - rewrite writeDeps_lookup. split; [reflexivity|].
    destruct res.1; simpl; congruence.
Qed.






End ProtoResolveFacts.

(** ** Facts about the vendoring precedence *)

(** The greatest depth of a list that holds [d] and nothing above it. *)
Lemma foldr_max_greatest (d : Z) (l1 l2 : list Z) :
  -1 <= d ->
  Forall (fun x => x < d) l1 ->
  Forall (fun x => x < d) l2 ->
  foldr Z.max (-1) (l1 ++ d :: l2) = d.
Proof.
  intros Hd H1 H2.
  assert (Hl2 : foldr Z.max (-1) l2 <= d).
  { induction H2 as [|x l Hx _ IH]; simpl; lia. }
  induction H1 as [|x l Hx _ IH]; simpl; lia.
Qed.

(** No candidate below the greatest depth is kept. *)
Lemma filter_depth_below (best : Z) (l : list resolve.FindResult) :
  Forall (fun m => golang.vendorDepth m < best) l ->
  filter (fun m => golang.vendorDepth m = best) l = [].
Proof.
  induction 1 as [|m l Hm _ IH]; [reflexivity|].
  rewrite filter_cons_False by lia. exact IH.
Qed.

(** The candidates of [l] that can be selected are below [m]. *)
Lemma eligible_below (from : label.Label) (d : Z) (l : list resolve.FindResult) :
  Forall (fun m' => golang.encloses from m' = false \/ golang.vendorDepth m' < d) l ->
  Forall (fun m' => golang.vendorDepth m' < d)
         (filter (fun m' => golang.encloses from m' = true) l).
Proof.
  induction 1 as [|m' l Hm' _ IH]; [constructor|].
  destruct (golang.encloses from m') eqn:E.
  - rewrite filter_cons_True by exact E. constructor; [|exact IH].
    destruct Hm' as [Hm'|Hm']; [congruence|exact Hm'].
  - rewrite filter_cons_False by congruence. exact IH.
Qed.

(** The narrowing keeps the one candidate that is nearer than all others. *)
Lemma nearestVendored_unique (from : label.Label) (pre post : list resolve.FindResult)
  (m : resolve.FindResult) (root : string) :
  golang.vendorRoot (label.Pkg (resolve.Label m)) = Some root ->
  pathtools.HasPrefix (label.Pkg from) root = true ->
  Forall (fun m' => golang.encloses from m' = false
                    \/ golang.vendorDepth m' < golang.vendorDepth m) (pre ++ post) ->
  golang.nearestVendored from (pre ++ m :: post) = [m].
Proof.
  intros Hroot Hpre Hothers. apply Forall_app in Hothers as [H1 H2].
  apply eligible_below in H1, H2.
  assert (Hm : golang.encloses from m = true).
  { unfold golang.encloses. rewrite Hroot. exact Hpre. }
  assert (Hd : -1 <= golang.vendorDepth m).
  { unfold golang.vendorDepth, strings.len. rewrite Hroot. lia. }
  unfold golang.nearestVendored.
  rewrite filter_app, (filter_cons_True _ m) by exact Hm.
  rewrite fmap_app, fmap_cons.
  rewrite (foldr_max_greatest (golang.vendorDepth m)); [|exact Hd|..].
  - rewrite filter_app, filter_cons_True by reflexivity.
    rewrite !filter_depth_below by assumption. reflexivity.
  - apply Forall_fmap. exact H1.
  - apply Forall_fmap. exact H2.
Qed.

(** C8. Under the vendoring convention, when the index returns more than
    one candidate, a vendored candidate whose vendor directory encloses the
    package of the importing rule and is nearer than that of every other
    candidate that can be selected is the one resolved to; a candidate that
    is not vendored is below every vendored one. So the consumer in
    [shallow/deep] gets the provider of [shallow/deep/vendor] rather than
    that of [shallow/vendor], and the consumer in [sub] the provider of
    [vendor/foo] rather than that of the top directory. *)
Theorem C8_nearest_vendor_wins ix imp from pre m post root :
  resolve.FindRulesByImport ix (resolve.mkImportSpec "go" imp) "go" = pre ++ m :: post ->
  pre ++ post <> [] ->
  golang.vendorRoot (label.Pkg (resolve.Label m)) = Some root ->
  pathtools.HasPrefix (label.Pkg from) root = true ->
  Forall (fun m' => golang.encloses from m' = false
                    \/ golang.vendorDepth m' < golang.vendorDepth m) (pre ++ post) ->
  label.Equal from (resolve.Label m) = false ->
  golang.resolveWithIndexGo ix imp from = (resolve.Label m, None)
  /\ (forall m', golang.vendorRoot (label.Pkg (resolve.Label m')) = None ->
                 golang.vendorDepth m' < golang.vendorDepth m)
  /\ golang.resolveWithIndexGo sample.deepShallowIndex "example.com/foo"
       (label.New "" "shallow/deep" "bin")
     = (label.New "" "shallow/deep/vendor" "deep", None)
  /\ golang.resolveWithIndexGo sample.vendorNonvendorIndex "example.com/foo"
       (label.New "" "sub" "bin")
     = (label.New "" "vendor/foo" "vendored", None).
Proof.
  intros Hfind Hmore Hroot Hpre Hothers Hself. split; [|split; [|split]].
  - unfold golang.resolveWithIndexGo. rewrite Hfind.
    assert (Hn : match pre ++ m :: post with
                 | _ :: _ :: _ => golang.nearestVendored from (pre ++ m :: post)
                 | _ => pre ++ m :: post
                 end = [m]).
    { pose proof (nearestVendored_unique from pre post m root Hroot Hpre Hothers) as Hu.
      destruct pre as [|p0 pre]; [destruct post as [|p0 post]; [contradiction|]|];
        simpl in *; try exact Hu.
      destruct pre; exact Hu. }
    rewrite Hn, Hself. reflexivity.
  - intros m' Hnone. unfold golang.vendorDepth, strings.len. rewrite Hnone, Hroot. lia.
  - vm_compute. reflexivity.
  - vm_compute. reflexivity.
Qed.

(** ** Concrete build files *)

Lemma C1_ambiguous_import_reported_witness :
  let r := sample.protoRule "c_proto" ["q/z.proto"; "a/x.proto"; "w.proto"] in
  let from := label.New "" "app" "c_proto" in
  rule.PrivateAttr r sample.GazelleImportsKey
  = Some (rule.FlatStrings (["q/z.proto"] ++ "a/x.proto" :: ["w.proto"]))
  /\ resolve.FindRulesByImport sample.ambiguousIndex
       (resolve.mkImportSpec "proto" "a/x.proto") "proto"
     = [resolve.mkFindResult (label.New "" "a" "a_proto") [];
        resolve.mkFindResult (label.New "" "a" "b_proto") []]
  /\ sample.resolveProto sample.ambiguousIndex r "a/x.proto" from
     = (label.NoLabel,
        Some (multipleRulesError (label.New "" "a" "a_proto") (label.New "" "a" "b_proto")
                "a/x.proto" from))
  /\ sample.Resolve sample.ambiguousIndex r from
     = Returned (writeDeps r ["//q:q_proto"; "//:root_proto"])
         [multipleRulesError (label.New "" "a" "a_proto") (label.New "" "a" "b_proto")
            "a/x.proto" from].
Proof.
  intros r from.
  assert (H1 : rule.PrivateAttr r sample.GazelleImportsKey
               = Some (rule.FlatStrings (["q/z.proto"] ++ "a/x.proto" :: ["w.proto"])))
    by (vm_compute; reflexivity).
  assert (H2 : resolve.FindRulesByImport sample.ambiguousIndex
                 (resolve.mkImportSpec "proto" "a/x.proto") "proto"
               = [resolve.mkFindResult (label.New "" "a" "a_proto") [];
                  resolve.mkFindResult (label.New "" "a" "b_proto") []])
    by (vm_compute; reflexivity).
  split; [exact H1|]. split; [exact H2|].
  exact (C1_ambiguous_import_reported sample.WellKnownTypesProtoRepo
           sample.WellKnownTypesProtoPrefix sample.GazelleImportsKey sample.RuleName
           sample.ambiguousIndex r from ["q/z.proto"] "a/x.proto" ["w.proto"] _ _ [] H1 H2
           eq_refl).
Defined.

(** C1 as stated fails on a well-known path: [google/protobuf/any.proto] has
    two providers in the index, neither of them the resolving rule, and the
    import still gives a dependency, with nothing printed. *)
Lemma C1_well_known_counterexample :
  let r := sample.protoRule "app_proto" ["google/protobuf/any.proto"] in
  let from := label.New "" "app" "app_proto" in
  resolve.FindRulesByImport sample.ambiguousWellKnownIndex
    (resolve.mkImportSpec "proto" "google/protobuf/any.proto") "proto"
  = [resolve.mkFindResult (label.New "" "google/protobuf" "any_proto") [];
     resolve.mkFindResult (label.New "" "google/protobuf" "all_proto") []]
  /\ sample.Resolve sample.ambiguousWellKnownIndex r from
     = Returned (writeDeps r ["@com_google_protobuf//:any_proto"]) [].
Proof. split; vm_compute; reflexivity. Qed.

Lemma C2_self_import_skipped_witness :
  let r := sample.protoRule "lib_proto" ["q/z.proto"; "lib/util.proto"; "w.proto"] in
  let from := label.New "" "lib" "lib_proto" in
  rule.PrivateAttr r sample.GazelleImportsKey
  = Some (rule.FlatStrings (["q/z.proto"] ++ "lib/util.proto" :: ["w.proto"]))
  /\ resolve.FindRulesByImport sample.libIndex
       (resolve.mkImportSpec "proto" "lib/util.proto") "proto"
     = [resolve.mkFindResult from []]
  /\ sample.resolveProto sample.libIndex r "lib/util.proto" from
     = (label.NoLabel, Some skipImportError)
  /\ sample.Resolve sample.libIndex r from
     = Returned (writeDeps r ["//q:q_proto"; "//:root_proto"]) [].
Proof.
  intros r from.
  assert (H1 : rule.PrivateAttr r sample.GazelleImportsKey
               = Some (rule.FlatStrings (["q/z.proto"] ++ "lib/util.proto" :: ["w.proto"])))
    by (vm_compute; reflexivity).
  assert (H2 : resolve.FindRulesByImport sample.libIndex
                 (resolve.mkImportSpec "proto" "lib/util.proto") "proto"
               = [resolve.mkFindResult from []])
    by (vm_compute; reflexivity).
  split; [exact H1|]. split; [exact H2|].
  exact (C2_self_import_skipped sample.WellKnownTypesProtoRepo
           sample.WellKnownTypesProtoPrefix sample.GazelleImportsKey sample.RuleName
           sample.libIndex r from ["q/z.proto"] "lib/util.proto" ["w.proto"] _ H1 H2
           eq_refl eq_refl eq_refl).
Defined.

(** C2 as stated fails on a well-known path and on a path that does not end
    in [.proto]. In both cases the only provider of the import is the
    resolving rule itself; the first import gives a dependency, and an
    error is printed for the second. *)
Lemma C2_self_import_counterexample :
  let r1 := sample.protoRule "wkt_proto" ["google/protobuf/any.proto"] in
  let from1 := label.New "" "google/protobuf" "wkt_proto" in
  let r2 := sample.protoRule "data_proto" ["data/schema.txt"] in
  let from2 := label.New "" "data" "data_proto" in
  (resolve.FindRulesByImport sample.wellKnownSelfIndex
     (resolve.mkImportSpec "proto" "google/protobuf/any.proto") "proto"
   = [resolve.mkFindResult from1 []]
   /\ sample.Resolve sample.wellKnownSelfIndex r1 from1
      = Returned (writeDeps r1 ["@com_google_protobuf//:any_proto"]) [])
  /\ (resolve.FindRulesByImport sample.nonProtoSelfIndex
        (resolve.mkImportSpec "proto" "data/schema.txt") "proto"
      = [resolve.mkFindResult from2 []]
      /\ sample.Resolve sample.nonProtoSelfIndex r2 from2
         = Returned (writeDeps r2 []) [nonProtoError "data/schema.txt"]).
Proof. repeat split; vm_compute; reflexivity. Qed.


Lemma C4_non_proto_import_reported_witness :
  let r := sample.protoRule "c_proto" ["q/z.proto"; "foo.txt"; "w.proto"] in
  let from := label.New "" "app" "c_proto" in
  rule.PrivateAttr r sample.GazelleImportsKey
  = Some (rule.FlatStrings (["q/z.proto"] ++ "foo.txt" :: ["w.proto"]))
  /\ strings.HasSuffix "foo.txt" ".proto" = false
  /\ sample.resolveProto sample.libIndex r "foo.txt" from
     = (label.NoLabel, Some (nonProtoError "foo.txt"))
  /\ sample.Resolve sample.libIndex r from
     = Returned (writeDeps r ["//q:q_proto"; "//:root_proto"]) [nonProtoError "foo.txt"].
Proof.
  intros r from.
  assert (H1 : rule.PrivateAttr r sample.GazelleImportsKey
               = Some (rule.FlatStrings (["q/z.proto"] ++ "foo.txt" :: ["w.proto"])))
    by (vm_compute; reflexivity).
  split; [exact H1|]. split; [reflexivity|].
  exact (C4_non_proto_import_reported sample.WellKnownTypesProtoRepo
           sample.WellKnownTypesProtoPrefix sample.GazelleImportsKey sample.RuleName
           sample.libIndex r from ["q/z.proto"] "foo.txt" ["w.proto"] H1 eq_refl).
Defined.

(** C4 as stated fails: an import that does not end in [.proto] does not
    make [Resolve] panic. It returns, having printed the error, and the
    import after it is resolved and written. *)
Lemma C4_non_proto_counterexample :
  let r := sample.protoRule "c_proto" ["foo.txt"; "a/b.proto"] in
  let from := label.New "" "" "c_proto" in
  sample.Resolve resolve.NewRuleIndex r from
  = Returned (writeDeps r ["//a:a_proto"]) [nonProtoError "foo.txt"]
  /\ sample.Resolve resolve.NewRuleIndex r from <> Panicked.
Proof. split; [vm_compute; reflexivity|discriminate]. Qed.

Lemma C5_fallback_same_directory_witness :
  let r := sample.protoRule "c_proto" ["q/sub/z.proto"] in
  let from := label.New "" "app" "c_proto" in
  strings.HasSuffix "q/sub/z.proto" ".proto" = true
  /\ isWellKnownProto sample.WellKnownTypesProtoPrefix "q/sub/z.proto" = false
  /\ resolve.FindRulesByImport sample.libIndex
       (resolve.mkImportSpec "proto" "q/sub/z.proto") "proto" = []
  /\ sample.resolveProto sample.libIndex r "q/sub/z.proto" from
     = (label.New "" "q/sub" "sub_proto", None)
  /\ strings.ContainsSlash "q/sub/z.proto" || String.eqb "q/sub" "" = true.
Proof.
  intros r from. split; [reflexivity|]. split; [reflexivity|].
  assert (H3 : resolve.FindRulesByImport sample.libIndex
                 (resolve.mkImportSpec "proto" "q/sub/z.proto") "proto" = [])
    by (vm_compute; reflexivity).
  split; [exact H3|].
  exact (C5_fallback_same_directory sample.WellKnownTypesProtoRepo
           sample.WellKnownTypesProtoPrefix sample.RuleName
           sample.libIndex r from "q/sub/z.proto" eq_refl eq_refl H3).
Defined.

Lemma C6_resolve_idempotent_witness :
  let r := sample.protoRule "c_proto" ["lib/lib.proto"; "a/x.proto"] in
  let r0 := sample.protoRule "c_proto" ["a/x.proto"] in
  let from := label.New "" "app" "c_proto" in
  rule.PrivateAttr r sample.GazelleImportsKey
  = Some (rule.FlatStrings ["lib/lib.proto"; "a/x.proto"])
  /\ (sample.Resolve sample.libIndex r from
      = Returned (writeDeps r ["//lib:lib_proto"; "//a:a_proto"]) []
      /\ sample.Resolve sample.libIndex (writeDeps r ["//lib:lib_proto"; "//a:a_proto"]) from
         = Returned (writeDeps r ["//lib:lib_proto"; "//a:a_proto"]) []
      /\ rule.attrs (writeDeps r ["//lib:lib_proto"; "//a:a_proto"]) !! "deps"
         = Some (rule.StringsAttr ["//lib:lib_proto"; "//a:a_proto"])
      /\ rule.attrs (writeDeps r ["//lib:lib_proto"; "//a:a_proto"]) !! "deps"
         <> Some (rule.StringsAttr []))
  /\ rule.PrivateAttr r0 sample.GazelleImportsKey = Some (rule.FlatStrings ["a/x.proto"])
  /\ (sample.Resolve sample.ambiguousIndex r0 from
      = Returned (writeDeps r0 [])
          [multipleRulesError (label.New "" "a" "a_proto") (label.New "" "a" "b_proto")
             "a/x.proto" from]
      /\ sample.Resolve sample.ambiguousIndex (writeDeps r0 []) from
         = Returned (writeDeps r0 [])
             [multipleRulesError (label.New "" "a" "a_proto") (label.New "" "a" "b_proto")
                "a/x.proto" from]
      /\ rule.attrs (writeDeps r0 []) !! "deps" = None
      /\ rule.attrs (writeDeps r0 []) !! "deps" <> Some (rule.StringsAttr [])).
Proof.
  intros r r0 from.
  assert (H1 : rule.PrivateAttr r sample.GazelleImportsKey
               = Some (rule.FlatStrings ["lib/lib.proto"; "a/x.proto"]))
    by (vm_compute; reflexivity).
  assert (H2 : rule.PrivateAttr r0 sample.GazelleImportsKey
               = Some (rule.FlatStrings ["a/x.proto"]))
    by (vm_compute; reflexivity).
  split; [exact H1|]. split.
  - exact (C6_resolve_idempotent sample.WellKnownTypesProtoRepo
             sample.WellKnownTypesProtoPrefix sample.GazelleImportsKey sample.RuleName
             sample.libIndex r from _ H1).
  - split; [exact H2|].
    exact (C6_resolve_idempotent sample.WellKnownTypesProtoRepo
             sample.WellKnownTypesProtoPrefix sample.GazelleImportsKey sample.RuleName
             sample.ambiguousIndex r0 from _ H2).
Defined.



Lemma C8_nearest_vendor_wins_witness :
  let from := label.New "" "shallow/deep" "bin" in
  let shallow := resolve.mkFindResult (label.New "" "shallow/vendor" "shallow") [] in
  let deep := resolve.mkFindResult (label.New "" "shallow/deep/vendor" "deep") [] in
  resolve.FindRulesByImport sample.deepShallowIndex
    (resolve.mkImportSpec "go" "example.com/foo") "go" = [shallow] ++ deep :: []
  /\ [shallow] ++ [] <> []
  /\ golang.vendorRoot (label.Pkg (resolve.Label deep)) = Some "shallow/deep"
  /\ pathtools.HasPrefix (label.Pkg from) "shallow/deep" = true
  /\ Forall (fun m' => golang.encloses from m' = false
                       \/ golang.vendorDepth m' < golang.vendorDepth deep) ([shallow] ++ [])
  /\ label.Equal from (resolve.Label deep) = false
  /\ golang.resolveWithIndexGo sample.deepShallowIndex "example.com/foo" from
     = (label.New "" "shallow/deep/vendor" "deep", None).
Proof.
  intros from shallow deep.
  assert (H1 : resolve.FindRulesByImport sample.deepShallowIndex
                 (resolve.mkImportSpec "go" "example.com/foo") "go" = [shallow] ++ deep :: [])
    by (vm_compute; reflexivity).
  assert (H2 : [shallow] ++ [] <> []) by discriminate.
  assert (H5 : Forall (fun m' => golang.encloses from m' = false
                                 \/ golang.vendorDepth m' < golang.vendorDepth deep)
                      ([shallow] ++ [])).
  { constructor; [right; vm_compute; reflexivity|constructor]. }
  split; [exact H1|]. split; [exact H2|]. split; [reflexivity|]. split; [reflexivity|].
  split; [exact H5|]. split; [reflexivity|].
  exact (proj1 (C8_nearest_vendor_wins sample.deepShallowIndex "example.com/foo" from
                  [shallow] deep [] "shallow/deep" H1 H2 eq_refl eq_refl H5 eq_refl)).
Defined.



(** * Further properties *)

(** ** Paths made of plain elements *)

Lemma stripTrailingSlashes_noslash (t : string) :
  strings.ContainsSlash t = false -> path.stripTrailingSlashes t = t.
Proof.
  induction t as [|c t IH]; [reflexivity|]. simpl. intros H.
  apply orb_false_iff in H as [Hc Ht]. rewrite (IH Ht), Hc.
  destruct t; reflexivity.
Qed.

Lemma lastSlash_app (s t : string) :
  strings.ContainsSlash t = false ->
  path.lastSlash (s +:+ "/" +:+ t) = Z.of_nat (String.length s).
Proof.
  intros Ht. induction s as [|c s IH].
  - rewrite app_empty_l. change ("/" +:+ t) with (String "/" t).
    rewrite lastSlash_cons, (lastSlash_none_inv t Ht). reflexivity.
  - rewrite app_cons, lastSlash_cons, IH.
    destruct (0 <=? Z.of_nat (String.length s)) eqn:E.
    + simpl String.length. lia.
    + apply Z.leb_gt in E. lia.
Qed.

Lemma sliceFrom_after_slash (s t : string) :
  strings.sliceFrom (Z.to_nat (Z.of_nat (String.length s) + 1)) (s +:+ "/" +:+ t) = t.
Proof.
  replace (Z.to_nat (Z.of_nat (String.length s) + 1))
    with (String.length (s +:+ "/")) by (rewrite length_app_str; simpl; lia).
  rewrite <- app_assoc_str. apply sliceFrom_app.
Qed.

Lemma sliceTo_after_slash (s t : string) :
  strings.sliceTo (Z.to_nat (Z.of_nat (String.length s) + 1)) (s +:+ "/" +:+ t)
  = s +:+ "/".
Proof.
  replace (Z.to_nat (Z.of_nat (String.length s) + 1))
    with (String.length (s +:+ "/")) by (rewrite length_app_str; simpl; lia).
  rewrite <- app_assoc_str. apply sliceTo_app.
Qed.

(** The base name of a path that ends in an element without a slash. *)
Lemma Base_app (s t : string) :
  strings.ContainsSlash t = false -> t <> "" -> path.Base (s +:+ "/" +:+ t) = t.
Proof.
  intros Ht Hne. unfold path.Base.
  assert (Hstrip : path.stripTrailingSlashes (s +:+ "/" +:+ t) = s +:+ "/" +:+ t).
  { assert (H1 : path.stripTrailingSlashes ("/" +:+ t) = "/" +:+ t).
    { change ("/" +:+ t) with (String "/" t). rewrite stripTrailingSlashes_cons.
      rewrite (stripTrailingSlashes_noslash t Ht). destruct t; [contradiction|reflexivity]. }
    rewrite stripTrailingSlashes_app; rewrite H1; [reflexivity|discriminate]. }
  destruct (String.eqb_spec (s +:+ "/" +:+ t) "") as [E|_].
  { apply (f_equal String.length) in E. rewrite !length_app_str in E. simpl in E. lia. }
  rewrite Hstrip, (lastSlash_app s t Ht).
  destruct (0 <=? Z.of_nat (String.length s)) eqn:E; [|apply Z.leb_gt in E; lia].
  rewrite sliceFrom_after_slash.
  destruct (String.eqb_spec t "") as [E2|_]; [contradiction|reflexivity].
Qed.

Lemma Split_app (s t : string) :
  strings.ContainsSlash t = false -> path.Split (s +:+ "/" +:+ t) = (s +:+ "/", t).
Proof.
  intros Ht. unfold path.Split. rewrite (lastSlash_app s t Ht).
  rewrite sliceFrom_after_slash, sliceTo_after_slash. reflexivity.
Qed.

Lemma plainElem_inv (e : string) :
  plainElem e = true ->
  e <> "" /\ e <> "." /\ e <> ".." /\ strings.ContainsSlash e = false.
Proof.
  unfold plainElem. intros H.
  apply andb_true_iff in H as [H H4]. apply andb_true_iff in H as [H H3].
  apply andb_true_iff in H as [H1 H2].
  apply negb_true_iff in H1, H2, H3, H4.
  apply String.eqb_neq in H1, H2, H3. auto.
Qed.

Lemma SplitSlash_cons (c : ascii) (s : string) :
  strings.SplitSlash (String c s) =
  if Ascii.eqb c "/" then EmptyString :: strings.SplitSlash s
  else match strings.SplitSlash s with
       | e :: es => String c e :: es
       | [] => [String c EmptyString]
       end.
Proof. reflexivity. Qed.

Lemma SplitSlash_noslash (e : string) :
  strings.ContainsSlash e = false -> strings.SplitSlash e = [e].
Proof.
  induction e as [|c e IH]; [reflexivity|]. simpl. intros H.
  apply orb_false_iff in H as [Hc He]. rewrite Hc, (IH He). reflexivity.
Qed.

Lemma SplitSlash_app_slash (e s : string) :
  strings.ContainsSlash e = false ->
  strings.SplitSlash (e +:+ "/" +:+ s) = e :: strings.SplitSlash s.
Proof.
  induction e as [|c e IH]; [reflexivity|]. intros H. simpl in H.
  apply orb_false_iff in H as [Hc He].
  rewrite app_cons, SplitSlash_cons, Hc, (IH He). reflexivity.
Qed.

Lemma JoinSlash_cons2 (e e2 : string) (es : list string) :
  strings.JoinSlash (e :: e2 :: es) = e +:+ "/" +:+ strings.JoinSlash (e2 :: es).
Proof. reflexivity. Qed.

Lemma JoinSlash_snoc (es : list string) (f : string) :
  es <> [] -> strings.JoinSlash (es ++ [f]) = strings.JoinSlash es +:+ "/" +:+ f.
Proof.
  induction es as [|e [|e2 es] IH]; [contradiction|reflexivity|]. intros _.
  change ((e :: e2 :: es) ++ [f]) with (e :: e2 :: (es ++ [f])).
  rewrite !JoinSlash_cons2. change (e2 :: es ++ [f]) with ((e2 :: es) ++ [f]).
  rewrite IH by discriminate. rewrite !app_assoc_str. reflexivity.
Qed.

(** Splitting a path of plain elements gives these elements. *)
Lemma SplitSlash_JoinSlash (es : list string) :
  Forall (fun e => plainElem e = true) es -> es <> [] ->
  strings.SplitSlash (strings.JoinSlash es) = es.
Proof.
  induction 1 as [|e es He Hes IH]; [contradiction|]. intros _.
  apply plainElem_inv in He as (_ & _ & _ & He).
  destruct es as [|e2 es]; [apply SplitSlash_noslash; exact He|].
  rewrite JoinSlash_cons2, (SplitSlash_app_slash e _ He), IH by discriminate.
  reflexivity.
Qed.

Lemma SplitSlash_JoinSlash_slash (es : list string) :
  Forall (fun e => plainElem e = true) es -> es <> [] ->
  strings.SplitSlash (strings.JoinSlash es +:+ "/") = es ++ [""].
Proof.
  induction 1 as [|e es He Hes IH]; [contradiction|]. intros _.
  apply plainElem_inv in He as (_ & _ & _ & He).
  destruct es as [|e2 es].
  - simpl strings.JoinSlash. rewrite <- (app_empty_r (e +:+ "/")), app_assoc_str.
    rewrite (SplitSlash_app_slash e _ He). reflexivity.
  - rewrite JoinSlash_cons2, !app_assoc_str, (SplitSlash_app_slash e _ He).
    rewrite IH by discriminate. reflexivity.
Qed.

(** [path.Clean] keeps plain elements. *)
Lemma foldl_cleanStep_plain (rooted : bool) (es out : list string) (dotdot : nat) :
  Forall (fun e => plainElem e = true) es ->
  foldl (path.cleanStep rooted) (dotdot, out) es = (dotdot, out ++ es).
Proof.
  intros H. revert out. induction H as [|e es He _ IH]; intros out.
  - simpl. rewrite app_nil_r. reflexivity.
  - simpl. apply plainElem_inv in He as (H1 & H2 & H3 & _).
    apply String.eqb_neq in H1, H2, H3. rewrite H1, H2, H3.
    rewrite IH, <- app_assoc. reflexivity.
Qed.

Lemma JoinSlash_head (e : string) (es : list string) :
  plainElem e = true ->
  exists c s, strings.JoinSlash (e :: es) = String c s /\ Ascii.eqb c "/" = false.
Proof.
  intros He. apply plainElem_inv in He as (H1 & _ & _ & H4).
  destruct e as [|c e]; [contradiction|]. simpl in H4.
  apply orb_false_iff in H4 as [Hc _].
  destruct es as [|e2 es].
  - exists c, e. auto.
  - exists c, (e +:+ "/" +:+ strings.JoinSlash (e2 :: es)). auto.
Qed.

Lemma JoinSlash_not_dot (es : list string) :
  Forall (fun e => plainElem e = true) es -> es <> [] -> strings.JoinSlash es <> ".".
Proof.
  intros H Hne E. pose proof (SplitSlash_JoinSlash es H Hne) as Hs. rewrite E in Hs.
  simpl in Hs. subst es. apply Forall_inv in H. discriminate H.
Qed.

Lemma Clean_plain (es : list string) :
  Forall (fun e => plainElem e = true) es -> es <> [] ->
  path.Clean (strings.JoinSlash es) = strings.JoinSlash es
  /\ path.Clean (strings.JoinSlash es +:+ "/") = strings.JoinSlash es.
Proof.
  intros H Hne. destruct es as [|e es]; [contradiction|].
  destruct (JoinSlash_head e es (Forall_inv H)) as (c & s & Hj & Hc).
  unfold path.Clean. split.
  - rewrite (SplitSlash_JoinSlash _ H Hne), Hj. simpl String.eqb. rewrite Hc, <- Hj.
    rewrite (foldl_cleanStep_plain false _ [] 0 H). simpl app. rewrite Hj. reflexivity.
  - rewrite (SplitSlash_JoinSlash_slash _ H Hne), Hj, app_cons. simpl String.eqb.
    rewrite Hc, <- Hj. rewrite foldl_app, (foldl_cleanStep_plain false _ [] 0 H).
    change (foldl (path.cleanStep false) (0%nat, [] ++ e :: es) [""])
      with (0%nat, e :: es).
    cbv beta iota zeta. rewrite Hj. reflexivity.
Qed.

(** The directory of a file in a directory of plain elements. *)
Lemma Dir_plain (es : list string) (file : string) :
  Forall (fun e => plainElem e = true) es -> es <> [] ->
  strings.ContainsSlash file = false ->
  path.Dir (strings.JoinSlash es +:+ "/" +:+ file) = strings.JoinSlash es.
Proof.
  intros H Hne Hf. unfold path.Dir. rewrite (Split_app _ _ Hf). simpl.
  apply Clean_plain; assumption.
Qed.

(** ** The resolver *)

Section ProtoResolveMore.

Variable WellKnownTypesProtoRepo : string.
Variable WellKnownTypesProtoPrefix : string.
Variable GazelleImportsKey : string.
Variable RuleName : string -> string -> string -> string.

(** What [resolveProto] can return. *)
Lemma resolveProto_cases ix r imp from :
  (exists l, resolveProto WellKnownTypesProtoRepo WellKnownTypesProtoPrefix RuleName
               ix r imp from = (l, None))
  \/ resolveProto WellKnownTypesProtoRepo WellKnownTypesProtoPrefix RuleName ix r imp from
     = (label.NoLabel, Some skipImportError)
  \/ resolveProto WellKnownTypesProtoRepo WellKnownTypesProtoPrefix RuleName ix r imp from
     = (label.NoLabel, Some (nonProtoError imp))
  \/ exists l0 l1,
       resolveProto WellKnownTypesProtoRepo WellKnownTypesProtoPrefix RuleName ix r imp from
       = (label.NoLabel, Some (multipleRulesError l0 l1 imp from)).
Proof.
  unfold resolveProto. destruct (strings.HasSuffix imp ".proto"); simpl; [|auto].
  destruct (isWellKnownProto WellKnownTypesProtoPrefix imp); [eauto|].
  unfold resolveWithIndex.
  destruct (resolve.FindRulesByImport ix _ "proto") as [|m0 [|m1 ms]]; [eauto| |eauto 6].
  destruct (label.Equal from (resolve.Label m0)); eauto.
Qed.

(** X1. [Resolve] changes nothing of a rule but its attribute [deps]. *)
Theorem X1_Resolve_frame ix r from r' logged :
  Resolve WellKnownTypesProtoRepo WellKnownTypesProtoPrefix GazelleImportsKey RuleName
    ix r from = Returned r' logged ->
  rule.Kind r' = rule.Kind r
  /\ rule.private r' = rule.private r
  /\ forall key, key <> "deps" -> rule.attrs r' !! key = rule.attrs r !! key.
Proof.
  intros H. destruct (rule.PrivateAttr r GazelleImportsKey) as [[imports|g p]|] eqn:E.
  - rewrite (Resolve_flat _ _ _ _ ix r from imports E) in H. injection H as <- _.
    apply writeDeps_frame.
  - unfold Resolve in H. rewrite E in H. discriminate.
  - unfold Resolve in H. rewrite E in H. injection H as <- _. auto.
Qed.

(** X2. An import that ends in [.proto], is not well-known and has exactly
    one provider, which is not the resolving rule, resolves to the label of
    that provider; [Resolve] writes it, relativized, between the
    dependencies of the imports before and after it, and prints nothing
    for it. *)
Theorem X2_unique_provider ix r from pre imp post m :
  rule.PrivateAttr r GazelleImportsKey = Some (rule.FlatStrings (pre ++ imp :: post)) ->
  resolve.FindRulesByImport ix (resolve.mkImportSpec "proto" imp) "proto" = [m] ->
  label.Equal from (resolve.Label m) = false ->
  strings.HasSuffix imp ".proto" = true ->
  isWellKnownProto WellKnownTypesProtoPrefix imp = false ->
  let before := resolveImports WellKnownTypesProtoRepo WellKnownTypesProtoPrefix RuleName
                  ix r from pre [] [] in
  let after := resolveImports WellKnownTypesProtoRepo WellKnownTypesProtoPrefix RuleName
                 ix r from post [] [] in
  resolveProto WellKnownTypesProtoRepo WellKnownTypesProtoPrefix RuleName ix r imp from
  = (resolve.Label m, None)
  /\ Resolve WellKnownTypesProtoRepo WellKnownTypesProtoPrefix GazelleImportsKey RuleName
       ix r from
     = Returned
         (writeDeps r
            (before.1
             ++ label.String (label.Rel (resolve.Label m) (label.Repo from) (label.Pkg from))
             :: after.1))
         (before.2 ++ after.2).
Proof.
  intros Hattr Hfind Heq Hs Hwk before after.
  assert (Hres : resolveProto WellKnownTypesProtoRepo WellKnownTypesProtoPrefix RuleName
                   ix r imp from = (resolve.Label m, None)).
  { unfold resolveProto. rewrite Hs, Hwk. simpl. unfold resolveWithIndex.
    rewrite Hfind, Heq. reflexivity. }
  split; [exact Hres|].
  rewrite (Resolve_split _ _ _ _ ix r from pre imp post Hattr).
  simpl. rewrite Hres. reflexivity.
Qed.

(** X3. [resolveProto] never returns a label together with an error, and
    the error is never [notFoundError]: it is [skipImportError], the error
    for an import that does not end in [.proto], or the error for several
    providers. *)
Theorem X3_resolveProto_errors ix r imp from l err :
  resolveProto WellKnownTypesProtoRepo WellKnownTypesProtoPrefix RuleName ix r imp from
  = (l, Some err) ->
  l = label.NoLabel
  /\ err <> notFoundError
  /\ (err = skipImportError \/ err = nonProtoError imp
      \/ exists l0 l1, err = multipleRulesError l0 l1 imp from).
Proof.
  intros H.
  destruct (resolveProto_cases ix r imp from) as [[l' H']|[H'|[H'|(l0 & l1 & H')]]];
    rewrite H' in H; [discriminate|..]; injection H as <- <-.
  - split; [reflexivity|]. split; [discriminate|]. auto.
  - split; [reflexivity|]. split; [discriminate|]. auto.
  - split; [reflexivity|]. split; [discriminate|]. eauto.
Qed.

(** The dependencies and the messages of the loop of [Resolve]. *)
Lemma resolveImports_log ix r from imports :
  let res := resolveImports WellKnownTypesProtoRepo WellKnownTypesProtoPrefix RuleName
               ix r from imports [] [] in
  Forall (fun err => exists imp, imp ∈ imports
                     /\ (err = nonProtoError imp
                         \/ exists l0 l1, err = multipleRulesError l0 l1 imp from)) res.2
  /\ (length res.1 + length res.2 <= length imports)%nat.
Proof.
  induction imports as [|imp rest [IH1 IH2]]; [split; [constructor|reflexivity]|].
  assert (Hrest : forall err,
            (exists imp0, imp0 ∈ rest /\ (err = nonProtoError imp0
               \/ exists l0 l1, err = multipleRulesError l0 l1 imp0 from)) ->
            exists imp0, imp0 ∈ imp :: rest /\ (err = nonProtoError imp0
               \/ exists l0 l1, err = multipleRulesError l0 l1 imp0 from)).
  { intros err (imp0 & Hin & H). exists imp0. split; [right; exact Hin|exact H]. }
  assert (Hhere : forall err,
            (err = nonProtoError imp \/ exists l0 l1, err = multipleRulesError l0 l1 imp from) ->
            exists imp0, imp0 ∈ imp :: rest /\ (err = nonProtoError imp0
               \/ exists l0 l1, err = multipleRulesError l0 l1 imp0 from)).
  { intros err H. exists imp. split; [left|exact H]. }
  simpl.
  destruct (resolveProto_cases ix r imp from) as [[l' H']|[H'|[H'|(l0 & l1 & H')]]];
    rewrite H'; try rewrite resolveImports_acc; simpl.
  - split; [eapply Forall_impl; [exact IH1|exact Hrest]|lia].
  - split; [eapply Forall_impl; [exact IH1|exact Hrest]|lia].
  - split; [|lia]. constructor; [apply Hhere; auto|].
    eapply Forall_impl; [exact IH1|exact Hrest].
  - split; [|lia]. constructor; [apply Hhere; eauto|].
    eapply Forall_impl; [exact IH1|exact Hrest].
Qed.

(** X4. Every message [Resolve] prints is the error of one of the imports,
    for an import that does not end in [.proto] or for one with several
    providers; [skipImportError] and [notFoundError] are never printed.
    There are at most as many dependencies and messages together as
    imports. *)
Theorem X4_Resolve_log ix r from imports :
  rule.PrivateAttr r GazelleImportsKey = Some (rule.FlatStrings imports) ->
  exists deps logged,
    Resolve WellKnownTypesProtoRepo WellKnownTypesProtoPrefix GazelleImportsKey RuleName
      ix r from = Returned (writeDeps r deps) logged
    /\ Forall (fun err => exists imp, imp ∈ imports
                          /\ (err = nonProtoError imp
                              \/ exists l0 l1, err = multipleRulesError l0 l1 imp from))
              logged
    /\ Forall (fun err => err <> skipImportError /\ err <> notFoundError) logged
    /\ (length deps + length logged <= length imports)%nat.
Proof.
  intros Hattr. eexists _, _. split; [apply Resolve_flat; exact Hattr|].
  destruct (resolveImports_log ix r from imports) as [H1 H2].
  split; [exact H1|]. split; [|exact H2].
  eapply Forall_impl; [exact H1|]. intros err (imp & _ & [->|(l0 & l1 & ->)]);
    split; discriminate.
Qed.

(** X5. The imports are resolved one by one, in their order: the
    dependencies and the messages for a list of imports followed by another
    are those of the first followed by those of the second. Nothing is
    merged, so an import that occurs twice gives its dependency twice. *)
Theorem X5_Resolve_concatenates ix r from imports1 imports2 :
  rule.PrivateAttr r GazelleImportsKey = Some (rule.FlatStrings (imports1 ++ imports2)) ->
  let res1 := resolveImports WellKnownTypesProtoRepo WellKnownTypesProtoPrefix RuleName
                ix r from imports1 [] [] in
  let res2 := resolveImports WellKnownTypesProtoRepo WellKnownTypesProtoPrefix RuleName
                ix r from imports2 [] [] in
  Resolve WellKnownTypesProtoRepo WellKnownTypesProtoPrefix GazelleImportsKey RuleName
    ix r from = Returned (writeDeps r (res1.1 ++ res2.1)) (res1.2 ++ res2.2).
Proof.
  intros Hattr res1 res2.
  rewrite (Resolve_flat _ _ _ _ ix r from _ Hattr), resolveImports_app. reflexivity.
Qed.

(** Without a provider every import that ends in [.proto] resolves. *)
Lemma resolveImports_no_provider ix r from imports :
  Forall (fun imp => strings.HasSuffix imp ".proto" = true
                     /\ resolve.FindRulesByImport ix (resolve.mkImportSpec "proto" imp) "proto"
                        = []) imports ->
  (resolveImports WellKnownTypesProtoRepo WellKnownTypesProtoPrefix RuleName
     ix r from imports [] []).2 = []
  /\ length (resolveImports WellKnownTypesProtoRepo WellKnownTypesProtoPrefix RuleName
               ix r from imports [] []).1 = length imports.
Proof.
  induction 1 as [|imp rest [Hs Hf] _ [IH1 IH2]]; [split; reflexivity|].
  simpl. unfold resolveProto, resolveWithIndex. rewrite Hs, Hf. simpl.
  destruct (isWellKnownProto WellKnownTypesProtoPrefix imp);
    rewrite resolveImports_acc; simpl; rewrite IH1, IH2; split; reflexivity.
Qed.

(** X6. When every import ends in [.proto] and none has a provider in the
    index, every import resolves, to its well-known label or to the label
    of its directory: nothing is printed and there are as many dependencies
    as imports. *)
Theorem X6_no_provider_all_resolve ix r from imports :
  rule.PrivateAttr r GazelleImportsKey = Some (rule.FlatStrings imports) ->
  Forall (fun imp => strings.HasSuffix imp ".proto" = true
                     /\ resolve.FindRulesByImport ix (resolve.mkImportSpec "proto" imp) "proto"
                        = []) imports ->
  exists deps,
    Resolve WellKnownTypesProtoRepo WellKnownTypesProtoPrefix GazelleImportsKey RuleName
      ix r from = Returned (writeDeps r deps) []
    /\ length deps = length imports.
Proof.
  intros Hattr Hall. destruct (resolveImports_no_provider ix r from imports Hall) as [H1 H2].
  eexists. split; [|exact H2].
  rewrite (Resolve_flat _ _ _ _ ix r from _ Hattr), H1. reflexivity.
Qed.

(** X7. The dependencies [Resolve] writes and the messages it prints depend
    on the raw imports of the rule, the index and the label it is resolved
    from only: two rules with the same raw imports end with the same
    attribute [deps] and the same messages, whatever else is on them. *)
Theorem X7_Resolve_depends_on_imports ix r1 r2 from imports :
  rule.PrivateAttr r1 GazelleImportsKey = Some (rule.FlatStrings imports) ->
  rule.PrivateAttr r2 GazelleImportsKey = Some (rule.FlatStrings imports) ->
  exists r1' r2' logged,
    Resolve WellKnownTypesProtoRepo WellKnownTypesProtoPrefix GazelleImportsKey RuleName
      ix r1 from = Returned r1' logged
    /\ Resolve WellKnownTypesProtoRepo WellKnownTypesProtoPrefix GazelleImportsKey RuleName
         ix r2 from = Returned r2' logged
    /\ rule.attrs r1' !! "deps" = rule.attrs r2' !! "deps".
Proof.
  intros H1 H2. eexists _, _, _. split; [apply Resolve_flat; exact H1|]. split.
  - rewrite (Resolve_flat _ _ _ _ ix r2 from _ H2).
    rewrite (resolveImports_rule _ _ _ ix r2 r1). reflexivity.
  - rewrite !writeDeps_lookup. reflexivity.
Qed.

(** X8. With a non-empty prefix, the import [prefix/stem.proto], for a
    [stem] that is not empty and has no slash, is well-known and resolves
    to the target [stem_proto] of the top package of the well-known-types
    repository, whatever the index holds. *)
Theorem X8_well_known_name stem ix r from :
  WellKnownTypesProtoPrefix <> "" ->
  stem <> "" ->
  strings.ContainsSlash stem = false ->
  let imp := WellKnownTypesProtoPrefix +:+ "/" +:+ stem +:+ ".proto" in
  isWellKnownProto WellKnownTypesProtoPrefix imp = true
  /\ resolveProto WellKnownTypesProtoRepo WellKnownTypesProtoPrefix RuleName ix r imp from
     = (label.New WellKnownTypesProtoRepo "" (stem +:+ "_proto"), None).
Proof.
  intros Hp Hstem Hno imp.
  assert (Himp : imp = (WellKnownTypesProtoPrefix +:+ "/" +:+ stem) +:+ ".proto").
  { unfold imp. rewrite !app_assoc_str. reflexivity. }
  assert (Hs : strings.HasSuffix imp ".proto" = true).
  { rewrite Himp. apply HasSuffix_app. }
  assert (Hbase : path.Base imp = stem +:+ ".proto").
  { unfold imp. apply Base_app.
    - rewrite ContainsSlash_app, Hno. reflexivity.
    - destruct stem; [contradiction|discriminate]. }
  assert (Hwk : isWellKnownProto WellKnownTypesProtoPrefix imp = true).
  { apply (isWellKnownProto_iff _ imp Hp). rewrite Hbase. reflexivity. }
  split; [exact Hwk|].
  unfold resolveProto. rewrite Hs, Hwk. simpl negb. cbv iota.
  assert (Hcut : strings.sliceTo (String.length imp - String.length ".proto") imp
                 = WellKnownTypesProtoPrefix +:+ "/" +:+ stem).
  { rewrite Himp at 2. rewrite Himp at 1. rewrite length_app_str.
    replace (String.length (WellKnownTypesProtoPrefix +:+ "/" +:+ stem)
             + String.length ".proto" - String.length ".proto")%nat
      with (String.length (WellKnownTypesProtoPrefix +:+ "/" +:+ stem)) by lia.
    apply sliceTo_app. }
  rewrite Hcut, (Base_app _ stem Hno Hstem). reflexivity.
Qed.

(** X9. An import [dir/file] that ends in [.proto], is not well-known and
    has no provider, where [dir] is made of plain elements and [file] has
    no slash, resolves to the label of the package [dir] of the current
    workspace, named by [RuleName] of [dir]. *)
Theorem X9_fallback_plain_directory es file ix r from :
  Forall (fun e => plainElem e = true) es ->
  es <> [] ->
  strings.ContainsSlash file = false ->
  let dir := strings.JoinSlash es in
  let imp := dir +:+ "/" +:+ file in
  strings.HasSuffix imp ".proto" = true ->
  isWellKnownProto WellKnownTypesProtoPrefix imp = false ->
  resolve.FindRulesByImport ix (resolve.mkImportSpec "proto" imp) "proto" = [] ->
  resolveProto WellKnownTypesProtoRepo WellKnownTypesProtoPrefix RuleName ix r imp from
  = (label.New "" dir (RuleName "" dir ""), None).
Proof.
  intros Hes Hne Hfile dir imp Hs Hwk Hfind.
  unfold resolveProto. rewrite Hs, Hwk. simpl negb. cbv iota.
  unfold resolveWithIndex. rewrite Hfind. cbv beta iota zeta.
  unfold imp, dir. rewrite (Dir_plain es file Hes Hne Hfile).
  destruct (String.eqb_spec (strings.JoinSlash es) ".") as [E|_]; [|reflexivity].
  exfalso. exact (JoinSlash_not_dot es Hes Hne E).
Qed.

(** X10. A rule of the package made of the plain elements [es] (the top
    package for no element) provides each of its sources, when they are
    plain file names, under the import string [package/source], for the
    language [proto]. *)
Theorem X10_Imports_plain es srcs r :
  rule.attrs r !! "srcs" = Some (rule.StringsAttr srcs) ->
  Forall (fun e => plainElem e = true) es ->
  Forall (fun src => plainElem src = true) srcs ->
  Imports (strings.JoinSlash es) r
  = (fun src => resolve.mkImportSpec "proto" (strings.JoinSlash (es ++ [src]))) <$> srcs.
Proof.
  intros Hattr Hes Hsrcs. unfold Imports. rewrite Hattr.
  apply Forall_fmap_ext. eapply Forall_impl; [exact Hsrcs|].
  intros src Hsrc. simpl. f_equal. unfold path.Join.
  assert (Hall : Forall (fun e => plainElem e = true) (es ++ [src])).
  { apply Forall_app. split; [exact Hes|]. constructor; [exact Hsrc|constructor]. }
  destruct es as [|e es'].
  - simpl. apply plainElem_inv in Hsrc as Hinv. destruct Hinv as (H1 & _).
    apply String.eqb_neq in H1. rewrite H1. simpl.
    apply (Clean_plain [src] Hall). discriminate.
  - destruct (JoinSlash_head e es' (Forall_inv Hes)) as (c & s & Hj & _).
    rewrite Hj at 1. simpl negb. cbv iota.
    rewrite <- JoinSlash_snoc by discriminate.
    apply (Clean_plain _ Hall). discriminate.
Qed.

Variable goKinds : gset string.

(** The raw imports of a [proto_library] after [convertImportsAttr]. *)
Lemma convertImportsAttr_proto r :
  rule.Kind r = "proto_library" ->
  "proto_library" ∉ goKinds ->
  convertImportsAttr GazelleImportsKey goKinds r
  = SetPrivateAttr (rule.DelAttr r "_imports") GazelleImportsKey
      (rule.FlatStrings (AttrStrings r "_imports")).
Proof.
  intros Hk Hno. unfold convertImportsAttr. rewrite Hk.
  destruct (decide ("proto_library" ∈ goKinds)) as [Hin|_]; [contradiction|reflexivity].
Qed.

(** X11. For a [proto_library] of a test, [convertImportsAttr] and then
    [Resolve] resolve the strings of the attribute [_imports]: [Resolve]
    returns, the attribute [_imports] is gone from the rule, and [deps] is
    what these strings resolve to. *)
Theorem X11_convert_then_Resolve ix r from :
  rule.Kind r = "proto_library" ->
  "proto_library" ∉ goKinds ->
  let r0 := convertImportsAttr GazelleImportsKey goKinds r in
  let res := resolveImports WellKnownTypesProtoRepo WellKnownTypesProtoPrefix RuleName
               ix r0 from (AttrStrings r "_imports") [] [] in
  Resolve WellKnownTypesProtoRepo WellKnownTypesProtoPrefix GazelleImportsKey RuleName
    ix r0 from = Returned (writeDeps r0 res.1) res.2
  /\ rule.attrs (writeDeps r0 res.1) !! "_imports" = None
  /\ rule.attrs (writeDeps r0 res.1) !! "deps" = attrOfDeps res.1.
Proof.
  intros Hk Hno r0 res.
  assert (Hattr : rule.PrivateAttr r0 GazelleImportsKey
                  = Some (rule.FlatStrings (AttrStrings r "_imports"))).
  { unfold r0. rewrite (convertImportsAttr_proto r Hk Hno).
    unfold rule.PrivateAttr, SetPrivateAttr. simpl. apply lookup_insert_eq. }
  split; [apply Resolve_flat; exact Hattr|]. split; [|apply writeDeps_lookup].
  destruct (writeDeps_frame r0 res.1) as (_ & _ & Hframe).
  rewrite Hframe by discriminate.
  unfold r0. rewrite (convertImportsAttr_proto r Hk Hno). simpl.
  apply lookup_delete_eq.
Qed.

(** X12. The raw imports of a rule of a Go kind are platform strings, not a
    list of strings: [Resolve] of the proto resolver panics on such a rule
    after [convertImportsAttr]. *)
Theorem X12_Resolve_panics_on_go_rule ix r from :
  rule.Kind r ∈ goKinds ->
  Resolve WellKnownTypesProtoRepo WellKnownTypesProtoPrefix GazelleImportsKey RuleName
    ix (convertImportsAttr GazelleImportsKey goKinds r) from = Panicked.
Proof.
  intros Hk. unfold convertImportsAttr.
  destruct (decide (rule.Kind r ∈ goKinds)) as [_|Hno]; [|contradiction].
  unfold Resolve, rule.PrivateAttr, SetPrivateAttr. simpl.
  rewrite lookup_insert_eq. reflexivity.
Qed.

(** X13. A [proto_library] without the attribute [_imports] still gets raw
    imports from [convertImportsAttr], an empty list: [Resolve] then
    deletes its attribute [deps] and changes nothing else of the
    attributes. *)
Theorem X13_convert_without_imports ix r from :
  rule.Kind r = "proto_library" ->
  "proto_library" ∉ goKinds ->
  rule.attrs r !! "_imports" = None ->
  exists r',
    Resolve WellKnownTypesProtoRepo WellKnownTypesProtoPrefix GazelleImportsKey RuleName
      ix (convertImportsAttr GazelleImportsKey goKinds r) from = Returned r' []
    /\ rule.attrs r' = delete "deps" (rule.attrs r)
    /\ rule.PrivateAttr r' GazelleImportsKey = Some (rule.FlatStrings []).
Proof.
  intros Hk Hno Hnone.
  assert (Hconv : convertImportsAttr GazelleImportsKey goKinds r
                  = SetPrivateAttr r GazelleImportsKey (rule.FlatStrings [])).
  { rewrite (convertImportsAttr_proto r Hk Hno). unfold AttrStrings. rewrite Hnone.
    unfold rule.DelAttr, SetPrivateAttr. simpl. rewrite delete_id by exact Hnone.
    reflexivity. }
  rewrite Hconv. eexists. split; [|split].
  - unfold Resolve, rule.PrivateAttr, SetPrivateAttr. simpl.
    rewrite lookup_insert_eq. reflexivity.
  - reflexivity.
  - unfold rule.PrivateAttr. simpl. apply lookup_insert_eq.
Qed.

(** X14. [convertImportsAttr] uses up the attribute [_imports]: applied a
    second time to a [proto_library] it finds none and replaces the raw
    imports by the empty list. *)
Theorem X14_convert_twice r :
  rule.Kind r = "proto_library" ->
  "proto_library" ∉ goKinds ->
  let r2 := convertImportsAttr GazelleImportsKey goKinds
              (convertImportsAttr GazelleImportsKey goKinds r) in
  rule.PrivateAttr (convertImportsAttr GazelleImportsKey goKinds r) GazelleImportsKey
  = Some (rule.FlatStrings (AttrStrings r "_imports"))
  /\ rule.PrivateAttr r2 GazelleImportsKey = Some (rule.FlatStrings [])
  /\ rule.attrs r2 = delete "_imports" (rule.attrs r).
Proof.
  intros Hk Hno r2.
  set (r1 := convertImportsAttr GazelleImportsKey goKinds r) in *.
  assert (H1 : r1 = SetPrivateAttr (rule.DelAttr r "_imports") GazelleImportsKey
                      (rule.FlatStrings (AttrStrings r "_imports")))
    by (apply convertImportsAttr_proto; assumption).
  assert (Hk1 : rule.Kind r1 = "proto_library") by (rewrite H1; exact Hk).
  assert (Hnone : AttrStrings r1 "_imports" = []).
  { unfold AttrStrings. rewrite H1. simpl. rewrite lookup_delete_eq. reflexivity. }
  split; [rewrite H1; unfold rule.PrivateAttr; simpl; apply lookup_insert_eq|].
  unfold r2. rewrite (convertImportsAttr_proto r1 Hk1 Hno), Hnone. split.
  - unfold rule.PrivateAttr. simpl. apply lookup_insert_eq.
  - rewrite H1. simpl. apply delete_delete_eq.
Qed.

End ProtoResolveMore.

(** ** The Go functions the resolver calls *)

(** X15. [path.Split] cuts a path after its last slash: the two parts put
    together are the path, and the second part has no slash. *)
Theorem X15_Split_parts (p : string) :
  (path.Split p).1 +:+ (path.Split p).2 = p
  /\ strings.ContainsSlash (path.Split p).2 = false.
Proof.
  unfold path.Split. simpl. split; [apply sliceTo_sliceFrom|].
  pose proof (lastSlash_ge p) as Hge.
  destruct (Z.le_gt_cases 0 (path.lastSlash p)) as [H|H].
  - apply lastSlash_rest. exact H.
  - replace (path.lastSlash p) with (-1) by lia. simpl. apply lastSlash_none. lia.
Qed.

(** X16. For a file name without a slash in a directory of plain elements,
    [path.Dir] gives the directory and [path.Base] the file name. *)
Theorem X16_Dir_Base_plain (es : list string) (file : string) :
  Forall (fun e => plainElem e = true) es ->
  es <> [] ->
  strings.ContainsSlash file = false ->
  file <> "" ->
  path.Dir (strings.JoinSlash es +:+ "/" +:+ file) = strings.JoinSlash es
  /\ path.Base (strings.JoinSlash es +:+ "/" +:+ file) = file.
Proof.
  intros Hes Hne Hf Hfile. split; [apply Dir_plain; assumption|].
  apply Base_app; assumption.
Qed.

(** ** The stub of the repository root lookup *)

Lemma HasPrefix_trans (s p q : string) :
  strings.HasPrefix s p = true -> strings.HasPrefix p q = true ->
  strings.HasPrefix s q = true.
Proof.
  intros H1 H2. apply HasPrefix_inv in H1, H2. rewrite H1, H2 at 1.
  rewrite app_assoc_str. apply HasPrefix_app.
Qed.

(** X17. [stubRepoRootForImportPath] fails exactly on the import paths that
    do not start with [example.com], with the import path in its error;
    the flag [verbose] has no effect. *)
Theorem X17_stub_fails (importpath : string) (verbose : bool) :
  (strings.HasPrefix importpath "example.com" = false
   <-> stubRepoRootForImportPath importpath verbose = CouldNotResolve importpath)
  /\ (strings.HasPrefix importpath "example.com" = true
      <-> exists root, stubRepoRootForImportPath importpath verbose = FoundRoot root)
  /\ stubRepoRootForImportPath importpath verbose
     = stubRepoRootForImportPath importpath (negb verbose).
Proof.
  assert (H1 : strings.HasPrefix importpath "example.com/repo.git" = true ->
               strings.HasPrefix importpath "example.com" = true).
  { intros H. apply (HasPrefix_trans _ _ _ H). reflexivity. }
  assert (H2 : strings.HasPrefix importpath "example.com/repo" = true ->
               strings.HasPrefix importpath "example.com" = true).
  { intros H. apply (HasPrefix_trans _ _ _ H). reflexivity. }
  unfold stubRepoRootForImportPath.
  destruct (strings.HasPrefix importpath "example.com/repo.git") eqn:E1.
  { rewrite (H1 eq_refl). repeat split; try discriminate; eauto. }
  destruct (strings.HasPrefix importpath "example.com/repo") eqn:E2.
  { rewrite (H2 eq_refl). repeat split; try discriminate; eauto. }
  destruct (strings.HasPrefix importpath "example.com") eqn:E3.
  - repeat split; try discriminate; eauto.
  - repeat split; try discriminate; auto. intros [root H]. discriminate.
Qed.

(** X18. The root [stubRepoRootForImportPath] finds is a prefix of the
    import path, and the longest of the three roots the stub knows that
    is one; its version control is git. *)
Theorem X18_stub_root (importpath : string) (verbose : bool) (root : vcs.RepoRoot) :
  stubRepoRootForImportPath importpath verbose = FoundRoot root ->
  strings.HasPrefix importpath (vcs.Root root) = true
  /\ vcs.VCS root = "git"
  /\ vcs.Root root ∈ ["example.com/repo.git"; "example.com/repo"; "example.com"]
  /\ forall known,
       known ∈ ["example.com/repo.git"; "example.com/repo"; "example.com"] ->
       strings.HasPrefix importpath known = true ->
       (String.length known <= String.length (vcs.Root root))%nat.
Proof.
  unfold stubRepoRootForImportPath.
  destruct (strings.HasPrefix importpath "example.com/repo.git") eqn:E1.
  { intros H. injection H as <-. simpl. split; [exact E1|]. split; [reflexivity|].
    split; [set_solver|]. intros known Hk _.
    repeat (apply elem_of_cons in Hk as [->|Hk]; [simpl; lia|]). inversion Hk. }
  destruct (strings.HasPrefix importpath "example.com/repo") eqn:E2.
  { intros H. injection H as <-. simpl. split; [exact E2|]. split; [reflexivity|].
    split; [set_solver|]. intros known Hk Hp.
    apply elem_of_cons in Hk as [->|Hk]; [congruence|].
    repeat (apply elem_of_cons in Hk as [->|Hk]; [simpl; lia|]). inversion Hk. }
  destruct (strings.HasPrefix importpath "example.com") eqn:E3; [|discriminate].
  intros H. injection H as <-. simpl. split; [exact E3|]. split; [reflexivity|].
  split; [set_solver|]. intros known Hk Hp.
  apply elem_of_cons in Hk as [->|Hk]; [congruence|].
  apply elem_of_cons in Hk as [->|Hk]; [congruence|].
  repeat (apply elem_of_cons in Hk as [->|Hk]; [simpl; lia|]). inversion Hk.
Qed.

(** ** The further properties on concrete build files *)

Lemma X1_Resolve_frame_witness :
  let r := sample.protoRule "c_proto" ["lib/lib.proto"] in
  let from := label.New "" "app" "c_proto" in
  let r' := writeDeps r ["//lib:lib_proto"] in
  sample.Resolve sample.libIndex r from = Returned r' []
  /\ rule.Kind r' = rule.Kind r
  /\ rule.private r' = rule.private r
  /\ forall key, key <> "deps" -> rule.attrs r' !! key = rule.attrs r !! key.
Proof.
  intros r from r'.
  assert (H : sample.Resolve sample.libIndex r from = Returned r' [])
    by (vm_compute; reflexivity).
  split; [exact H|].
  exact (X1_Resolve_frame sample.WellKnownTypesProtoRepo sample.WellKnownTypesProtoPrefix
           sample.GazelleImportsKey sample.RuleName sample.libIndex r from r' [] H).
Defined.

Lemma X2_unique_provider_witness :
  let r := sample.protoRule "c_proto" ["q/z.proto"; "lib/util.proto"; "w.proto"] in
  let from := label.New "" "app" "c_proto" in
  let m := resolve.mkFindResult (label.New "" "lib" "lib_proto") [] in
  rule.PrivateAttr r sample.GazelleImportsKey
  = Some (rule.FlatStrings (["q/z.proto"] ++ "lib/util.proto" :: ["w.proto"]))
  /\ resolve.FindRulesByImport sample.libIndex
       (resolve.mkImportSpec "proto" "lib/util.proto") "proto" = [m]
  /\ sample.resolveProto sample.libIndex r "lib/util.proto" from
     = (label.New "" "lib" "lib_proto", None)
  /\ sample.Resolve sample.libIndex r from
     = Returned (writeDeps r ["//q:q_proto"; "//lib:lib_proto"; "//:root_proto"]) [].
Proof.
  intros r from m.
  assert (H1 : rule.PrivateAttr r sample.GazelleImportsKey
               = Some (rule.FlatStrings (["q/z.proto"] ++ "lib/util.proto" :: ["w.proto"])))
    by (vm_compute; reflexivity).
  assert (H2 : resolve.FindRulesByImport sample.libIndex
                 (resolve.mkImportSpec "proto" "lib/util.proto") "proto" = [m])
    by (vm_compute; reflexivity).
  split; [exact H1|]. split; [exact H2|].
  exact (X2_unique_provider sample.WellKnownTypesProtoRepo sample.WellKnownTypesProtoPrefix
           sample.GazelleImportsKey sample.RuleName sample.libIndex r from
           ["q/z.proto"] "lib/util.proto" ["w.proto"] m H1 H2 eq_refl eq_refl eq_refl).
Defined.

Lemma X3_resolveProto_errors_witness :
  let r := sample.protoRule "c_proto" ["a/x.proto"] in
  let from := label.New "" "app" "c_proto" in
  let err := multipleRulesError (label.New "" "a" "a_proto") (label.New "" "a" "b_proto")
               "a/x.proto" from in
  sample.resolveProto sample.ambiguousIndex r "a/x.proto" from = (label.NoLabel, Some err)
  /\ label.NoLabel = label.NoLabel
  /\ err <> notFoundError
  /\ (err = skipImportError \/ err = nonProtoError "a/x.proto"
      \/ exists l0 l1, err = multipleRulesError l0 l1 "a/x.proto" from).
Proof.
  intros r from err.
  assert (H : sample.resolveProto sample.ambiguousIndex r "a/x.proto" from
              = (label.NoLabel, Some err)) by (vm_compute; reflexivity).
  split; [exact H|].
  exact (X3_resolveProto_errors sample.WellKnownTypesProtoRepo
           sample.WellKnownTypesProtoPrefix sample.RuleName sample.ambiguousIndex r
           "a/x.proto" from label.NoLabel err H).
Defined.

Lemma X4_Resolve_log_witness :
  let imports := ["q/z.proto"; "a/x.proto"; "foo.txt"] in
  let r := sample.protoRule "a_proto" imports in
  let from := label.New "" "a" "a_proto" in
  rule.PrivateAttr r sample.GazelleImportsKey = Some (rule.FlatStrings imports)
  /\ exists deps logged,
       sample.Resolve sample.ambiguousIndex r from = Returned (writeDeps r deps) logged
       /\ Forall (fun err => exists imp, imp ∈ imports
                             /\ (err = nonProtoError imp
                                 \/ exists l0 l1, err = multipleRulesError l0 l1 imp from))
                 logged
       /\ Forall (fun err => err <> skipImportError /\ err <> notFoundError) logged
       /\ (length deps + length logged <= length imports)%nat.
Proof.
  intros imports r from.
  assert (H : rule.PrivateAttr r sample.GazelleImportsKey = Some (rule.FlatStrings imports))
    by (vm_compute; reflexivity).
  split; [exact H|].
  exact (X4_Resolve_log sample.WellKnownTypesProtoRepo sample.WellKnownTypesProtoPrefix
           sample.GazelleImportsKey sample.RuleName sample.ambiguousIndex r from imports H).
Defined.

Lemma X5_Resolve_concatenates_witness :
  let r := sample.protoRule "c_proto" (["lib/lib.proto"; "foo.txt"] ++ ["lib/lib.proto"]) in
  let from := label.New "" "app" "c_proto" in
  rule.PrivateAttr r sample.GazelleImportsKey
  = Some (rule.FlatStrings (["lib/lib.proto"; "foo.txt"] ++ ["lib/lib.proto"]))
  /\ sample.Resolve sample.libIndex r from
     = Returned (writeDeps r (["//lib:lib_proto"] ++ ["//lib:lib_proto"]))
         ([nonProtoError "foo.txt"] ++ []).
Proof.
  intros r from.
  assert (H : rule.PrivateAttr r sample.GazelleImportsKey
              = Some (rule.FlatStrings (["lib/lib.proto"; "foo.txt"] ++ ["lib/lib.proto"])))
    by (vm_compute; reflexivity).
  split; [exact H|].
  exact (X5_Resolve_concatenates sample.WellKnownTypesProtoRepo
           sample.WellKnownTypesProtoPrefix sample.GazelleImportsKey sample.RuleName
           sample.libIndex r from ["lib/lib.proto"; "foo.txt"] ["lib/lib.proto"] H).
Defined.

Lemma X6_no_provider_all_resolve_witness :
  let imports := ["q/z.proto"; "google/protobuf/any.proto"; "w.proto"] in
  let r := sample.protoRule "c_proto" imports in
  let from := label.New "" "app" "c_proto" in
  rule.PrivateAttr r sample.GazelleImportsKey = Some (rule.FlatStrings imports)
  /\ Forall (fun imp => strings.HasSuffix imp ".proto" = true
                        /\ resolve.FindRulesByImport sample.libIndex
                             (resolve.mkImportSpec "proto" imp) "proto" = []) imports
  /\ exists deps,
       sample.Resolve sample.libIndex r from = Returned (writeDeps r deps) []
       /\ length deps = length imports.
Proof.
  intros imports r from.
  assert (H1 : rule.PrivateAttr r sample.GazelleImportsKey = Some (rule.FlatStrings imports))
    by (vm_compute; reflexivity).
  assert (H2 : Forall (fun imp => strings.HasSuffix imp ".proto" = true
                                  /\ resolve.FindRulesByImport sample.libIndex
                                       (resolve.mkImportSpec "proto" imp) "proto" = [])
                      imports).
  { repeat (constructor; [split; vm_compute; reflexivity|]). constructor. }
  split; [exact H1|]. split; [exact H2|].
  exact (X6_no_provider_all_resolve sample.WellKnownTypesProtoRepo
           sample.WellKnownTypesProtoPrefix sample.GazelleImportsKey sample.RuleName
           sample.libIndex r from imports H1 H2).
Defined.

Lemma X7_Resolve_depends_on_imports_witness :
  let r1 := sample.protoRule "c_proto" ["lib/lib.proto"] in
  let r2 := rule.mkRule "proto_library" {[ "name" := rule.StringAttr "d_proto" ]}
              {[ sample.GazelleImportsKey := rule.FlatStrings ["lib/lib.proto"] ]} in
  let from := label.New "" "app" "c_proto" in
  rule.PrivateAttr r1 sample.GazelleImportsKey = Some (rule.FlatStrings ["lib/lib.proto"])
  /\ rule.PrivateAttr r2 sample.GazelleImportsKey = Some (rule.FlatStrings ["lib/lib.proto"])
  /\ exists r1' r2' logged,
       sample.Resolve sample.libIndex r1 from = Returned r1' logged
       /\ sample.Resolve sample.libIndex r2 from = Returned r2' logged
       /\ rule.attrs r1' !! "deps" = rule.attrs r2' !! "deps".
Proof.
  intros r1 r2 from.
  assert (H1 : rule.PrivateAttr r1 sample.GazelleImportsKey
               = Some (rule.FlatStrings ["lib/lib.proto"])) by (vm_compute; reflexivity).
  assert (H2 : rule.PrivateAttr r2 sample.GazelleImportsKey
               = Some (rule.FlatStrings ["lib/lib.proto"])) by (vm_compute; reflexivity).
  split; [exact H1|]. split; [exact H2|].
  exact (X7_Resolve_depends_on_imports sample.WellKnownTypesProtoRepo
           sample.WellKnownTypesProtoPrefix sample.GazelleImportsKey sample.RuleName
           sample.libIndex r1 r2 from ["lib/lib.proto"] H1 H2).
Defined.

Lemma X8_well_known_name_witness :
  sample.WellKnownTypesProtoPrefix <> ""
  /\ "field_mask" <> ""
  /\ strings.ContainsSlash "field_mask" = false
  /\ isWellKnownProto sample.WellKnownTypesProtoPrefix "google/protobuf/field_mask.proto"
     = true
  /\ sample.resolveProto sample.libIndex (sample.protoRule "c_proto" [])
       "google/protobuf/field_mask.proto" (label.New "" "app" "c_proto")
     = (label.New "com_google_protobuf" "" "field_mask_proto", None).
Proof.
  assert (H1 : sample.WellKnownTypesProtoPrefix <> "") by discriminate.
  assert (H2 : "field_mask" <> "") by discriminate.
  split; [exact H1|]. split; [exact H2|]. split; [reflexivity|].
  exact (X8_well_known_name sample.WellKnownTypesProtoRepo sample.WellKnownTypesProtoPrefix
           sample.RuleName "field_mask" sample.libIndex (sample.protoRule "c_proto" [])
           (label.New "" "app" "c_proto") H1 H2 eq_refl).
Defined.

Lemma X9_fallback_plain_directory_witness :
  let es := ["q"; "sub"] in
  Forall (fun e => plainElem e = true) es
  /\ es <> []
  /\ strings.ContainsSlash "z.proto" = false
  /\ strings.HasSuffix "q/sub/z.proto" ".proto" = true
  /\ isWellKnownProto sample.WellKnownTypesProtoPrefix "q/sub/z.proto" = false
  /\ resolve.FindRulesByImport sample.libIndex
       (resolve.mkImportSpec "proto" "q/sub/z.proto") "proto" = []
  /\ sample.resolveProto sample.libIndex (sample.protoRule "c_proto" []) "q/sub/z.proto"
       (label.New "" "app" "c_proto")
     = (label.New "" "q/sub" "sub_proto", None).
Proof.
  intros es.
  assert (H1 : Forall (fun e => plainElem e = true) es)
    by (repeat (constructor; [reflexivity|]); constructor).
  assert (H2 : es <> []) by discriminate.
  assert (H6 : resolve.FindRulesByImport sample.libIndex
                 (resolve.mkImportSpec "proto" "q/sub/z.proto") "proto" = [])
    by (vm_compute; reflexivity).
  split; [exact H1|]. split; [exact H2|]. split; [reflexivity|]. split; [reflexivity|].
  split; [reflexivity|]. split; [exact H6|].
  exact (X9_fallback_plain_directory sample.WellKnownTypesProtoRepo
           sample.WellKnownTypesProtoPrefix sample.RuleName es "z.proto" sample.libIndex
           (sample.protoRule "c_proto" []) (label.New "" "app" "c_proto")
           H1 H2 eq_refl eq_refl eq_refl H6).
Defined.

Lemma X10_Imports_plain_witness :
  let r := rule.mkRule "proto_library"
             {[ "name" := rule.StringAttr "foo_proto";
                "srcs" := rule.StringsAttr ["bar.proto"; "baz.proto"] ]} ∅ in
  rule.attrs r !! "srcs" = Some (rule.StringsAttr ["bar.proto"; "baz.proto"])
  /\ Forall (fun e => plainElem e = true) ["sub"; "dir"]
  /\ Forall (fun src => plainElem src = true) ["bar.proto"; "baz.proto"]
  /\ Imports "sub/dir" r
     = [resolve.mkImportSpec "proto" "sub/dir/bar.proto";
        resolve.mkImportSpec "proto" "sub/dir/baz.proto"].
Proof.
  intros r.
  assert (H1 : rule.attrs r !! "srcs" = Some (rule.StringsAttr ["bar.proto"; "baz.proto"]))
    by (vm_compute; reflexivity).
  assert (H2 : Forall (fun e => plainElem e = true) ["sub"; "dir"])
    by (repeat (constructor; [reflexivity|]); constructor).
  assert (H3 : Forall (fun src => plainElem src = true) ["bar.proto"; "baz.proto"])
    by (repeat (constructor; [reflexivity|]); constructor).
  split; [exact H1|]. split; [exact H2|]. split; [exact H3|].
  exact (X10_Imports_plain ["sub"; "dir"] ["bar.proto"; "baz.proto"] r H1 H2 H3).
Defined.

Lemma X11_convert_then_Resolve_witness :
  let ix := sample.indexOf [sample.protoRecord "" "foo_proto" ["foo.proto"];
                            sample.protoRecord "" "bar_proto" ["bar.proto"]] in
  let from := label.New "" "" "bar_proto" in
  let r0 := testdata.convertImportsAttr testdata.barProto in
  rule.Kind testdata.barProto = "proto_library"
  /\ ("proto_library" ∉ testdata.goKinds)
  /\ sample.Resolve ix r0 from = Returned (writeDeps r0 [":foo_proto"]) []
  /\ rule.attrs (writeDeps r0 [":foo_proto"]) !! "_imports" = None
  /\ rule.attrs (writeDeps r0 [":foo_proto"]) !! "deps"
     = Some (rule.StringsAttr [":foo_proto"]).
Proof.
  intros ix from r0.
  assert (H2 : "proto_library" ∉ testdata.goKinds) by (vm_compute; intros H; discriminate H).
  split; [reflexivity|]. split; [exact H2|].
  exact (X11_convert_then_Resolve sample.WellKnownTypesProtoRepo
           sample.WellKnownTypesProtoPrefix sample.GazelleImportsKey sample.RuleName
           testdata.goKinds ix testdata.barProto from eq_refl H2).
Defined.

Lemma X12_Resolve_panics_on_go_rule_witness :
  rule.Kind testdata.goLib ∈ testdata.goKinds
  /\ sample.Resolve sample.libIndex (testdata.convertImportsAttr testdata.goLib)
       (label.New "" "" "d") = Panicked.
Proof.
  assert (H : rule.Kind testdata.goLib ∈ testdata.goKinds) by (vm_compute; reflexivity).
  split; [exact H|].
  exact (X12_Resolve_panics_on_go_rule sample.WellKnownTypesProtoRepo
           sample.WellKnownTypesProtoPrefix sample.GazelleImportsKey sample.RuleName
           testdata.goKinds sample.libIndex testdata.goLib (label.New "" "" "d") H).
Defined.

Lemma X13_convert_without_imports_witness :
  let r := rule.mkRule "proto_library"
             {[ "name" := rule.StringAttr "foo_proto";
                "deps" := rule.StringsAttr [":stale"] ]} ∅ in
  rule.Kind r = "proto_library"
  /\ ("proto_library" ∉ testdata.goKinds)
  /\ rule.attrs r !! "_imports" = None
  /\ exists r',
       sample.Resolve sample.libIndex (testdata.convertImportsAttr r)
         (label.New "" "" "foo_proto") = Returned r' []
       /\ rule.attrs r' = delete "deps" (rule.attrs r)
       /\ rule.PrivateAttr r' sample.GazelleImportsKey = Some (rule.FlatStrings []).
Proof.
  intros r.
  assert (H2 : "proto_library" ∉ testdata.goKinds) by (vm_compute; intros H; discriminate H).
  assert (H3 : rule.attrs r !! "_imports" = None) by (vm_compute; reflexivity).
  split; [reflexivity|]. split; [exact H2|]. split; [exact H3|].
  exact (X13_convert_without_imports sample.WellKnownTypesProtoRepo
           sample.WellKnownTypesProtoPrefix sample.GazelleImportsKey sample.RuleName
           testdata.goKinds sample.libIndex r (label.New "" "" "foo_proto") eq_refl H2 H3).
Defined.

Lemma X14_convert_twice_witness :
  let r1 := testdata.convertImportsAttr testdata.barProto in
  let r2 := testdata.convertImportsAttr r1 in
  rule.Kind testdata.barProto = "proto_library"
  /\ ("proto_library" ∉ testdata.goKinds)
  /\ rule.PrivateAttr r1 sample.GazelleImportsKey = Some (rule.FlatStrings ["foo.proto"])
  /\ rule.PrivateAttr r2 sample.GazelleImportsKey = Some (rule.FlatStrings [])
  /\ rule.attrs r2 = delete "_imports" (rule.attrs testdata.barProto).
Proof.
  intros r1 r2.
  assert (H2 : "proto_library" ∉ testdata.goKinds) by (vm_compute; intros H; discriminate H).
  split; [reflexivity|]. split; [exact H2|].
  exact (X14_convert_twice sample.GazelleImportsKey testdata.goKinds testdata.barProto
           eq_refl H2).
Defined.

Lemma X16_Dir_Base_plain_witness :
  Forall (fun e => plainElem e = true) ["google"; "protobuf"]
  /\ ["google"; "protobuf"] <> []
  /\ strings.ContainsSlash "any.proto" = false
  /\ "any.proto" <> ""
  /\ path.Dir "google/protobuf/any.proto" = "google/protobuf"
  /\ path.Base "google/protobuf/any.proto" = "any.proto".
Proof.
  assert (H1 : Forall (fun e => plainElem e = true) ["google"; "protobuf"])
    by (repeat (constructor; [reflexivity|]); constructor).
  assert (H2 : ["google"; "protobuf"] <> []) by discriminate.
  assert (H4 : "any.proto" <> "") by discriminate.
  split; [exact H1|]. split; [exact H2|]. split; [reflexivity|]. split; [exact H4|].
  exact (X16_Dir_Base_plain ["google"; "protobuf"] "any.proto" H1 H2 eq_refl H4).
Defined.

Lemma X18_stub_root_witness :
  let root := {| vcs.VCS := "git"; vcs.Repo := "https://example.com/repo.git";
                 vcs.Root := "example.com/repo" |} in
  stubRepoRootForImportPath "example.com/repo/lib" false = FoundRoot root
  /\ strings.HasPrefix "example.com/repo/lib" (vcs.Root root) = true
  /\ vcs.VCS root = "git"
  /\ vcs.Root root ∈ ["example.com/repo.git"; "example.com/repo"; "example.com"]
  /\ forall known,
       known ∈ ["example.com/repo.git"; "example.com/repo"; "example.com"] ->
       strings.HasPrefix "example.com/repo/lib" known = true ->
       (String.length known <= String.length (vcs.Root root))%nat.
Proof.
  intros root. split; [reflexivity|].
  exact (X18_stub_root "example.com/repo/lib" false root eq_refl).
Defined.
